(** * collate_project.py: a shallow embedding and its verified properties

    The program walks a project tree, selects text files by directory,
    hidden-name and extension rules, sorts the candidates, and renders one
    Markdown document.  This development embeds [src/collate_project.py]
    function by function and proves the properties stated for it.

    Conventions of the embedding.
    - Python [str] is [string] (a list of 8-bit characters); [str.lower] is
      the ASCII case mapping and string comparison is by character code.
    - Python [set] is stdpp's [gset string], [dict] is [gmap string string].
    - A [pathlib.Path] is the list of the components of an absolute POSIX
      path; [p / name] appends one component.
    - The filesystem is a directory tree in enumeration order, together with
      what [stat] and [open] answer for each path.  A raised exception is
      [None].
    - Filesystem calls are logged in a writer monad, so that "is never
      opened" and "is never visited" are statements about the log. *)

From Stdlib Require Import ZArith List Bool Ascii String Strings.Byte Sorted Permutation.
From Stdlib Require Import DecimalString QArith.
From stdpp Require Import base gmap strings list.

Import ListNotations.
Local Open Scope string_scope.
Local Open Scope list_scope.
Local Open Scope Z_scope.

(** ** Python string primitives *)

Module PyStr.

(** [c.lower()] on one ASCII character: ['A'..'Z'] move to ['a'..'z']. *)
Definition lower_ascii (c : ascii) : ascii :=
  let n := N_of_ascii c in
  if ((65 <=? n) && (n <=? 90))%N then ascii_of_N (n + 32) else c.

(** [s.lower()] *)
Fixpoint lower (s : string) : string :=
  match s with
  | EmptyString => EmptyString
  | String c s' => String (lower_ascii c) (lower s')
  end.

(** [s.startswith(".")] *)
Definition startswith_dot (s : string) : bool :=
  match s with
  | String c _ => Ascii.eqb c "."
  | EmptyString => false
  end.

(** [s.rfind(c)] counted from index [i] of the first character:
    the index of the last occurrence, or [-1]. *)
Fixpoint rfind_from (c : ascii) (s : string) (i : Z) : Z :=
  match s with
  | EmptyString => -1
  | String a s' =>
      let r := rfind_from c s' (i + 1) in
      if 0 <=? r then r else if Ascii.eqb a c then i else -1
  end.

Definition rfind (c : ascii) (s : string) : Z := rfind_from c s 0.

(** [s[i:]] for [0 <= i] *)
Fixpoint drop (n : nat) (s : string) : string :=
  match n, s with
  | O, _ => s
  | S n', String _ s' => drop n' s'
  | S _, EmptyString => EmptyString
  end.

(** [s.rstrip("\n")] *)
Fixpoint rstrip_nl (s : string) : string :=
  match s with
  | EmptyString => EmptyString
  | String c s' =>
      match rstrip_nl s' with
      | EmptyString => if Ascii.eqb c "010" then EmptyString else String c EmptyString
      | r => String c r
      end
  end.

(** [sep.join(parts)] *)
Definition join (sep : string) (parts : list string) : string :=
  String.concat sep parts.

(** [str(n)] for an integer *)
Definition str_of_int (n : Z) : string :=
  NilZero.string_of_int (Z.to_int n).

End PyStr.

(** ** pathlib *)

Module PyPath.

(** An absolute path, one component per element. *)
Definition Path := list string.

(** [p / name] *)
Definition child (p : Path) (name : string) : Path := p ++ [name].

(** [p.name]: the final component. *)
Definition name (p : Path) : string := List.last p "".

(** [p.suffix]:
<<
    name = self.name
    i = name.rfind('.')
    if 0 < i < len(name) - 1: return name[i:]
    else: return ''
>>
    A leading dot does not start a suffix, so [".gitignore"] has none. *)
Definition suffix_of_name (nm : string) : string :=
  let i := PyStr.rfind "." nm in
  if (0 <? i) && (i <? Z.of_nat (String.length nm) - 1)
  then PyStr.drop (Z.to_nat i) nm
  else "".

Definition suffix (p : Path) : string := suffix_of_name (name p).

(** [str(p)] for an absolute path *)
Definition str (p : Path) : string :=
  match p with
  | [] => "/"
  | _ => PyStr.join "/" ("" :: p)
  end.

(** [p.relative_to(root)] for [p] below [root], and its [str]. *)
Definition relative_to (p root : Path) : list string :=
  List.skipn (List.length root) p.

Definition str_rel (r : list string) : string :=
  match r with
  | [] => "."
  | _ => PyStr.join "/" r
  end.

End PyPath.

(** ** Configuration tables (module-level constants of the script) *)

Definition DEFAULT_EXCLUDED_DIRS : gset string :=
  list_to_set
    [ ".git"; ".svn"; ".hg"; ".idea"; ".vs"; ".vscode"; ".godot"; ".import";
      ".cache"; "target"; "node_modules"; "dist"; "build"; "out";
      "__pycache__" ].

Definition DEFAULT_ALLOWED_EXTENSIONS : gset string :=
  list_to_set
    [ ".gd"; ".tres"; ".cfg"; ".ini"; ".shader"; ".gdshader";
      ".rs"; ".toml"; ".md";
      ".h"; ".hpp"; ".c"; ".cpp"; ".cc"; ".cxx";
      ".json"; ".yml"; ".yaml"; ".js"; ".ts"; ".html"; ".css";
      ".py"; ".ps1"; ".bat"; ".sh"; ".zsh";
      ".txt"; ".csv"; ".gitattributes"; ".gitignore"; ".editorconfig" ].

Definition LANG_FROM_EXTENSION : gmap string string :=
  list_to_map
    [ (".gd", "gdscript"); (".rs", "rust"); (".toml", "toml"); (".lock", "");
      (".md", "md"); (".h", "cpp"); (".hpp", "cpp"); (".c", "c");
      (".cpp", "cpp"); (".cc", "cpp"); (".cxx", "cpp"); (".json", "json");
      (".yml", "yaml"); (".yaml", "yaml"); (".js", "javascript");
      (".ts", "typescript"); (".html", "html"); (".css", "css");
      (".py", "python"); (".ps1", "powershell"); (".bat", "bat");
      (".sh", "bash"); (".zsh", "bash"); (".tscn", ""); (".tres", "");
      (".cfg", ""); (".ini", ""); (".shader", "glsl"); (".gdshader", "glsl");
      (".import", ""); (".txt", ""); (".csv", ""); (".gitattributes", "");
      (".gitignore", ""); (".editorconfig", "") ].

(** ** The filesystem seen by one run *)

Import PyPath.

(** A directory tree below some path.  The children of a directory are in
    the order in which [os.scandir] enumerates them.  Symbolic links are
    not modelled: every [Dir] is a real, listable directory. *)
#[local] Unset Elimination Schemes.
Inductive node : Type :=
| File (name : string)
| Dir (name : string) (children : list node).
#[local] Set Elimination Schemes.

(** Induction on trees, with the hypothesis for every child. *)
Fixpoint node_ind (P : node -> Prop)
    (HFile : forall name, P (File name))
    (HDir : forall name children, Forall P children -> P (Dir name children))
    (n : node) : P n :=
  match n with
  | File name => HFile name
  | Dir name children =>
      HDir name children
        ((fix all (cs : list node) : Forall P cs :=
            match cs with
            | [] => @List.Forall_nil node P
            | c :: cs' =>
                @List.Forall_cons node P c cs' (node_ind P HFile HDir c) (all cs')
            end) children)
  end.

(** [fs_tree p] is what exists at [p], if anything; [fs_stat p] is
    [p.stat().st_size], [fs_read p] the bytes of the file; [None] stands
    for a raised [OSError]. *)
Record filesystem : Type := {
  fs_tree : Path -> option node;
  fs_stat : Path -> option Z;
  fs_read : Path -> option (list byte)
}.

(** ** Logged filesystem calls *)

Inductive fs_op : Type :=
| OpScandir (p : Path)      (* os.walk listed the directory *)
| OpStat (p : Path)         (* p.stat() *)
| OpOpenSample (p : Path)   (* open(p, "rb") and read of the sample *)
| OpReadText (p : Path).    (* p.read_text(...) *)

Definition Eff (A : Type) : Type := A * list fs_op.

Definition ret {A} (a : A) : Eff A := (a, []).

Definition bind {A B} (m : Eff A) (k : A -> Eff B) : Eff B :=
  let (a, l1) := m in
  let (b, l2) := k a in
  (b, l1 ++ l2).

Notation "x <~ m ;; k" := (bind m (fun x => k))
  (at level 100, m at next level, right associativity).

Definition value {A} (m : Eff A) : A := fst m.
Definition log {A} (m : Eff A) : list fs_op := snd m.

Section Filesystem.

Variable fs : filesystem.

Definition stat_size (p : Path) : Eff (option Z) :=
  (fs_stat fs p, [OpStat p]).

(** [open(p, "rb")] followed by [read(sample_bytes)] *)
Definition open_sample (p : Path) (sample_bytes : nat) : Eff (option (list byte)) :=
  (List.firstn sample_bytes <$> fs_read fs p, [OpOpenSample p]).

(** ** Binary detector *)

(** [b < 9 or (13 < b < 32)] *)
Definition is_control_byte (b : byte) : bool :=
  let n := Z.of_N (Byte.to_N b) in
  (n <? 9) || ((13 <? n) && (n <? 32)).

(** [sum(b < 9 or (13 < b < 32) for b in chunk)] *)
Definition control_bytes (chunk : list byte) : Z :=
  Z.of_nat (List.length (List.filter is_control_byte chunk)).

(** [b"\x00" in chunk] *)
Definition has_nul (chunk : list byte) : bool :=
  List.existsb (Byte.eqb x00) chunk.

(** The verdict on a sample that was read.  The quotient
    [control_bytes / len(chunk)] is a correctly rounded double and [0.30]
    is the double nearest to 3/10; rounding is monotone and two distinct
    fractions with denominator at most 8192 differ by far more than one
    unit in the last place, so the comparison [> 0.30] on doubles agrees
    with [10 * control_bytes > 3 * len(chunk)] on integers. *)
Definition binary_verdict (chunk : list byte) : bool :=
  if has_nul chunk then true
  else match chunk with
       | [] => false
       | _ => 3 * Z.of_nat (List.length chunk) <? 10 * control_bytes chunk
       end.

Definition SAMPLE_BYTES : nat := Z.to_nat 8192.

Definition is_probably_binary (file_path : Path) : Eff bool :=
  chunk <~ open_sample file_path SAMPLE_BYTES ;;
  match chunk with
  | Some chunk => ret (binary_verdict chunk)
  | None => ret true
  end.

End Filesystem.

(** ** Extension rules *)

Definition infer_lang_from_extension (file_path : Path) : string :=
  default "" (LANG_FROM_EXTENSION !! PyStr.lower (suffix file_path)).

Definition should_include_file (file_path : Path) (allowed_extensions : gset string) : bool :=
  if bool_decide (PyStr.lower (suffix file_path) ∈ allowed_extensions)
  then true else false.

(** ** Tree walker *)

Definition dirnames_of (cs : list node) : list string :=
  List.flat_map (fun c => match c with Dir d _ => [d] | File _ => [] end) cs.

Definition filenames_of (cs : list node) : list string :=
  List.flat_map (fun c => match c with File f => [f] | Dir _ _ => [] end) cs.

(** What [os.walk] yields for one directory: its path, and the names of
    its sub-directories and of its other entries. *)
Record walk_yield : Type := {
  current_dir : Path;
  dirnames : list string;
  filenames : list string
}.

(** [os.walk(top)], top-down.  The consumer prunes [dirnames] in place
    before the generator resumes; [keep] is the consumer's decision for
    one name.  A directory is listed, yielded, and then each kept
    sub-directory is walked in enumeration order.  A [top] that is not a
    directory yields nothing. *)
Fixpoint os_walk (keep : string -> bool) (top : Path) (n : node) : list walk_yield :=
  match n with
  | File _ => []
  | Dir _ cs =>
      {| current_dir := top; dirnames := dirnames_of cs; filenames := filenames_of cs |}
      :: List.flat_map
           (fun c => match c with
                     | Dir d _ => if keep d then os_walk keep (child top d) c else []
                     | File _ => []
                     end) cs
  end.

(** [dir_at t ds cs]: following the directory names [ds] from the root of
    [t] leads to a directory whose entries are [cs]. *)
Inductive dir_at : node -> list string -> list node -> Prop :=
| dir_here name cs : dir_at (Dir name cs) [] cs
| dir_below name cs d sub ds cs' :
    In (Dir d sub) cs -> dir_at (Dir d sub) ds cs' ->
    dir_at (Dir name cs) (d :: ds) cs'.

(** The set literal of line 139. *)
Definition HIDDEN_EXEMPT_SUFFIXES : gset string :=
  list_to_set [ ".gitignore"; ".gitattributes"; ".editorconfig" ].

Section Walker.

Variable excluded_directories : gset string.
Variable allowed_extensions : gset string.
Variable include_hidden : bool.

(** The pruning loop (lines 128-135): the names appended to
    [pruned_dirnames], in order. *)
Fixpoint prune_dirnames (names : list string) : list string :=
  match names with
  | [] => []
  | directory_name :: rest =>
      if bool_decide (directory_name ∈ excluded_directories) then prune_dirnames rest
      else if negb include_hidden && PyStr.startswith_dot directory_name
           then prune_dirnames rest
           else directory_name :: prune_dirnames rest
  end.

(** The same decision for a single name. *)
Definition dir_kept (directory_name : string) : bool :=
  if bool_decide (directory_name ∈ excluded_directories) then false
  else if negb include_hidden && PyStr.startswith_dot directory_name then false
       else true.

(** The file loop (lines 137-142) for one yielded directory. *)
Fixpoint collect_files (current_path : Path) (names : list string) : list Path :=
  match names with
  | [] => []
  | filename :: rest =>
      let file_path := child current_path filename in
      if negb include_hidden && PyStr.startswith_dot filename
         && negb (bool_decide (suffix file_path ∈ HIDDEN_EXEMPT_SUFFIXES))
      then collect_files current_path rest
      else if should_include_file file_path allowed_extensions
           then file_path :: collect_files current_path rest
           else collect_files current_path rest
  end.

(** The decision of the file loop for one name. *)
Definition file_selected (filename : string) : bool :=
  negb (negb include_hidden && PyStr.startswith_dot filename
        && negb (bool_decide (suffix_of_name filename ∈ HIDDEN_EXEMPT_SUFFIXES)))
  && bool_decide (PyStr.lower (suffix_of_name filename) ∈ allowed_extensions).

(** [collected_paths] before the final sort, in traversal order. *)
Definition collect_paths (root_dir : Path) (tree : node) : list Path :=
  List.flat_map (fun y => collect_files (current_dir y) (filenames y))
                (os_walk dir_kept root_dir tree).

End Walker.

(** ** [list.sort(key=...)]

    Python's sort is stable and compares keys with [<] only.  It is
    embedded as a stable insertion sort on the keys; [stable_sort_unique]
    below shows that every stable sort computes the same list. *)


Section SortByKey.

Context {A : Type} (key : A -> string).

Fixpoint insert_by_key (x : A) (l : list A) : list A :=
  match l with
  | [] => [x]
  | y :: l' =>
      if String.leb (key x) (key y) then x :: y :: l'
      else y :: insert_by_key x l'
  end.

Definition sort_by_key (l : list A) : list A :=
  List.fold_right insert_by_key [] l.


End SortByKey.

(** The sort key of line 144: [str(p).lower()]. *)
Definition path_key (p : Path) : string := PyStr.lower (PyPath.str p).

(** [walk_project]: the candidates in sorted order; the log holds one
    [OpScandir] per directory that [os.walk] listed.  A root that cannot be
    listed yields nothing ([os.walk] swallows the error). *)
Definition walk_project (fs : filesystem) (root_dir : Path)
    (excluded_directories allowed_extensions : gset string)
    (include_hidden : bool) : Eff (list Path) :=
  match fs_tree fs root_dir with
  | None => ret []
  | Some tree =>
      let visited := os_walk (dir_kept excluded_directories include_hidden) root_dir tree in
      (sort_by_key path_key
         (collect_paths excluded_directories allowed_extensions include_hidden root_dir tree),
       List.map (fun y => OpScandir (current_dir y)) visited)
  end.

(** ** Content loader *)

Section Loader.

Variable fs : filesystem.

(** [bytes.decode("utf-8", errors="replace")] with universal newlines, as
    done by [Path.read_text]; a total function of the bytes, provided by
    the Python runtime. *)
Variable decode : list byte -> string.

Definition read_text (p : Path) : Eff (option string) :=
  (decode <$> fs_read fs p, [OpReadText p]).

(** Lines 147-156.  [None] of the result is Python's [None]. *)
Definition read_text_safely (file_path : Path) (max_bytes : Z) : Eff (option string) :=
  size <~ stat_size fs file_path ;;
  match size with
  | None => ret None
  | Some st_size =>
      if max_bytes <? st_size then ret None
      else
        binary <~ is_probably_binary fs file_path ;;
        if binary then ret None
        else read_text file_path
  end.

End Loader.

(** ** Document assembler *)

Definition nl : string := String "010" EmptyString.

(** Division rounded to the nearest integer, ties to even. *)
Definition round_half_even_div (a b : Z) : Z :=
  let q := a / b in
  let r := a mod b in
  if b <? 2 * r then q + 1
  else if 2 * r =? b then (if Z.even q then q else q + 1)
  else q.

(** [f"{num_bytes/1024:.1f} KB"] for [0 <= num_bytes < 2^53]: the quotient
    is then an exact double and the format rounds its exact value to one
    decimal, ties to even. *)
Definition human_kilobytes (num_bytes : Z) : string :=
  let tenths := round_half_even_div (num_bytes * 10) 1024 in
  PyStr.str_of_int (tenths / 10) +:+ "." +:+ PyStr.str_of_int (tenths mod 10) +:+ " KB".

(** The command line after [parse_args]; [root] and [output] are the
    resolved absolute paths [project_root] and [output_file]. *)
Record Args : Type := {
  root : Path;
  output : Path;
  max_kb : Z;
  include_hidden : bool;
  extra_dirs : list string;
  only_exts : list string
}.

(** Lines 206-207 *)
Definition excluded_directories_of (args : Args) : gset string :=
  DEFAULT_EXCLUDED_DIRS ∪ list_to_set (extra_dirs args).

(** Lines 209-211 *)
Definition allowed_extensions_of (args : Args) : gset string :=
  match only_exts args with
  | [] => DEFAULT_ALLOWED_EXTENSIONS
  | exts => list_to_set (List.map PyStr.lower exts)
  end.

(** The mutable locals of the second half of [main]. *)
Record LoopState : Type := {
  lines : list string;
  included_count : nat;
  skipped_for_size : nat;
  skipped_as_binary : nat
}.

Definition append (st : LoopState) (new_lines : list string) : LoopState :=
  {| lines := lines st ++ new_lines;
     included_count := included_count st;
     skipped_for_size := skipped_for_size st;
     skipped_as_binary := skipped_as_binary st |}.

Definition count_included (st : LoopState) : LoopState :=
  {| lines := lines st;
     included_count := S (included_count st);
     skipped_for_size := skipped_for_size st;
     skipped_as_binary := skipped_as_binary st |}.

Definition count_too_large (st : LoopState) : LoopState :=
  {| lines := lines st;
     included_count := included_count st;
     skipped_for_size := S (skipped_for_size st);
     skipped_as_binary := skipped_as_binary st |}.

Definition count_binary (st : LoopState) : LoopState :=
  {| lines := lines st;
     included_count := included_count st;
     skipped_for_size := skipped_for_size st;
     skipped_as_binary := S (skipped_as_binary st) |}.

(** A monadic left fold: a [for] loop with effects. *)
Fixpoint for_each {S X : Type} (body : S -> X -> Eff S) (xs : list X) (st : S) : Eff S :=
  match xs with
  | [] => ret st
  | x :: xs' => st' <~ body st x ;; for_each body xs' st'
  end.

Section Assembler.

Variable fs : filesystem.
Variable decode : list byte -> string.
Variable project_root : Path.
Variable maximum_bytes : Z.

(** Table of contents, lines 233-239: one bullet per candidate whose
    [stat] succeeds. *)
Definition toc_entry (acc : list string) (path : Path) : Eff (list string) :=
  size <~ stat_size fs path ;;
  match size with
  | Some file_size =>
      let rel := relative_to path project_root in
      ret (acc ++ ["- `" +:+ str_rel rel +:+ "` (" +:+ human_kilobytes file_size +:+ ")"])
  | None => ret acc
  end.

(** Lines 259-268: the candidate is counted as included and its section
    is appended. *)
Definition emit_section (st : LoopState) (file_path : Path) (content : string) : LoopState :=
  let relative_path := relative_to file_path project_root in
  let language_tag := infer_lang_from_extension file_path in
  append (count_included st)
    [ "===== FILE: " +:+ str_rel relative_path +:+ " =====" +:+ nl;
      (if String.eqb language_tag "" then "```" else "```" +:+ language_tag);
      PyStr.rstrip_nl content;
      "```" +:+ nl ].

(** One iteration of the body loop, lines 246-268. *)
Definition process_file (st : LoopState) (file_path : Path) : Eff LoopState :=
  content <~ read_text_safely fs decode file_path maximum_bytes ;;
  match content with
  | None =>
      size <~ stat_size fs file_path ;;
      match size with
      | Some st_size =>
          if maximum_bytes <? st_size then ret (count_too_large st)
          else ret (count_binary st)
      | None => ret (count_binary st)
      end
  | Some content => ret (emit_section st file_path content)
  end.

End Assembler.

(** What a run leaves behind. *)
Record RunSummary : Type := {
  collected_paths : list Path;
  final : LoopState;
  output_file : Path;
  document : string;      (* the text written to [output_file] *)
  stdout : string
}.

Inductive Outcome : Type :=
| RootNotFound (stderr : string)   (* [return 1] *)
| Completed (summary : RunSummary). (* [return 0] *)


(** [main], from line 202 on. *)
Definition main (decode : list byte -> string) (args : Args) (fs : filesystem) : Eff Outcome :=
  let project_root := root args in
  let maximum_bytes := max_kb args * 1024 in
  let excluded_directories := excluded_directories_of args in
  let allowed_extensions := allowed_extensions_of args in
  match fs_tree fs project_root with
  | None =>
      ret (RootNotFound ("Error: root directory not found: " +:+ PyPath.str project_root))
  | Some _ =>
      collected <~ walk_project fs project_root excluded_directories
                     allowed_extensions (include_hidden args) ;;
      let header :=
        [ "# Project Context Collation" +:+ nl;
          "- Root: `" +:+ PyPath.str project_root +:+ "`";
          "- File count scanned (pre-size/binary filter): "
            +:+ PyStr.str_of_int (Z.of_nat (List.length collected));
          "- Max file size included: " +:+ PyStr.str_of_int (max_kb args) +:+ " KB";
          "";
          "## Table of Contents";
          "" ] in
      toc <~ for_each (toc_entry fs project_root) collected header ;;
      let start :=
        {| lines := toc ++ [nl +:+ "---" +:+ nl];
           included_count := 0; skipped_for_size := 0; skipped_as_binary := 0 |} in
      st <~ for_each (process_file fs decode project_root maximum_bytes) collected start ;;
      let footer :=
        [ nl +:+ "---";
          "Included files: " +:+ PyStr.str_of_int (Z.of_nat (included_count st));
          "Skipped (too large): " +:+ PyStr.str_of_int (Z.of_nat (skipped_for_size st));
          "Skipped (binary/non-text): " +:+ PyStr.str_of_int (Z.of_nat (skipped_as_binary st));
          "" ] in
      ret (Completed
             {| collected_paths := collected;
                final := st;
                output_file := output args;
                document := PyStr.join nl (lines st ++ footer);
                stdout := "Created: " +:+ PyPath.str (output args) |})
  end.

(** The tree as far as a walk with decision [keep] can see it: the entries
    of every rejected directory are removed. *)
Fixpoint prune_tree (keep : string -> bool) (n : node) : node :=
  match n with
  | File f => File f
  | Dir d cs =>
      Dir d (List.map
               (fun c => match c with
                         | Dir d' _ => if keep d' then prune_tree keep c else Dir d' []
                         | File f => File f
                         end) cs)
  end.

Definition prune_child (keep : string -> bool) (c : node) : node :=
  match c with
  | Dir d' _ => if keep d' then prune_tree keep c else Dir d' []
  | File f => File f
  end.

(** A project directory [/proj] holding exactly [entries]. *)
Definition flat_project (entries : list node) : filesystem :=
  {| fs_tree := fun p => if decide (p = ["proj"]) then Some (Dir "proj" entries) else None;
     fs_stat := fun _ => Some 10;
     fs_read := fun _ => Some (list_byte_of_string "text") |}.

(** The size test of lines 150 and 251: [stat] succeeds and reports more
    than [max_bytes]. *)
Definition is_too_large (fs : filesystem) (max_bytes : Z) (p : Path) : bool :=
  match fs_stat fs p with
  | Some st_size => max_bytes <? st_size
  | None => false
  end.

(** The three counters of a loop state. *)
Definition counters (st : LoopState) : nat * nat * nat :=
  (included_count st, skipped_for_size st, skipped_as_binary st).

(** ** Derived views of a run, used to state its properties *)

(** The name of a directory entry. *)
Definition node_name (n : node) : string :=
  match n with File f => f | Dir d _ => d end.

(** A tree as a filesystem holds it: the entries of one directory have
    distinct names. *)
#[local] Unset Elimination Schemes.
Inductive well_formed : node -> Prop :=
| wf_file f : well_formed (File f)
| wf_dir d cs :
    NoDup (List.map node_name cs) -> Forall well_formed cs -> well_formed (Dir d cs).
#[local] Set Elimination Schemes.

(** The bullet appended at line 237 for a candidate of size [file_size]. *)
Definition toc_bullet (project_root path : Path) (file_size : Z) : string :=
  "- `" +:+ str_rel (relative_to path project_root) +:+ "` ("
    +:+ human_kilobytes file_size +:+ ")".

(** All bullets of the table of contents: one per candidate whose [stat]
    answers, in the order of the candidates. *)
Definition toc_of (fs : filesystem) (project_root : Path) (collected : list Path) : list string :=
  List.flat_map
    (fun p => match fs_stat fs p with
              | Some file_size => [toc_bullet project_root p file_size]
              | None => []
              end) collected.

(** The seven lines appended at lines 225-231. *)
Definition header_of (args : Args) (collected : list Path) : list string :=
  [ "# Project Context Collation" +:+ nl;
    "- Root: `" +:+ PyPath.str (root args) +:+ "`";
    "- File count scanned (pre-size/binary filter): "
      +:+ PyStr.str_of_int (Z.of_nat (List.length collected));
    "- Max file size included: " +:+ PyStr.str_of_int (max_kb args) +:+ " KB";
    "";
    "## Table of Contents";
    "" ].

(** The four lines appended at lines 262-268 for an included candidate. *)
Definition section_lines (project_root file_path : Path) (content : string) : list string :=
  let language_tag := infer_lang_from_extension file_path in
  [ "===== FILE: " +:+ str_rel (relative_to file_path project_root) +:+ " =====" +:+ nl;
    (if String.eqb language_tag "" then "```" else "```" +:+ language_tag);
    PyStr.rstrip_nl content;
    "```" +:+ nl ].

(** What the loader answers for a path, without its log. *)
Definition loaded (fs : filesystem) (decode : list byte -> string)
    (max_bytes : Z) (p : Path) : option string :=
  value (read_text_safely fs decode p max_bytes).

(** All sections of the body: one per candidate that the loader accepts. *)
Definition sections_of (fs : filesystem) (decode : list byte -> string)
    (project_root : Path) (max_bytes : Z) (collected : list Path) : list string :=
  List.flat_map
    (fun p => match loaded fs decode max_bytes p with
              | Some content => section_lines project_root p content
              | None => []
              end) collected.

(** The five lines appended at lines 270-274. *)
Definition footer_of (st : LoopState) : list string :=
  [ nl +:+ "---";
    "Included files: " +:+ PyStr.str_of_int (Z.of_nat (included_count st));
    "Skipped (too large): " +:+ PyStr.str_of_int (Z.of_nat (skipped_for_size st));
    "Skipped (binary/non-text): " +:+ PyStr.str_of_int (Z.of_nat (skipped_as_binary st));
    "" ].

(** The bytes that the detector does not count: tab to carriage return,
    and everything from the space on. *)
Definition text_byte (b : byte) : Prop :=
  let n := Z.of_N (Byte.to_N b) in 9 <= n <= 13 \/ 32 <= n.

(** [n] newline characters. *)
Fixpoint newlines (n : nat) : string :=
  match n with
  | O => EmptyString
  | S n' => String "010" (newlines n')
  end.

(** ** A sample project on which the embedding is run *)

(** A decoder for the sample runs: the bytes taken as characters. *)
Definition ascii_decode (l : list byte) : string := string_of_list_byte l.

Definition demo_root : Path := ["home"; "proj"].

Definition demo_tree : node :=
  Dir "proj"
    [ File "b.txt"; File "A.txt"; File "a.TXT"; File ".gitignore"; File ".env";
      File "Makefile"; File "Cargo.toml";
      Dir "node_modules" [ File "x.js" ];
      Dir "TARGET" [ File "m.RS" ];
      Dir ".GIT" [ File "hook.py" ];
      Dir "src" [ File "a.py"; File "b.py"; File "big.rs"; File "bin.c"; File "gone.md" ] ].

(** [big.rs] is 600 KB, [bin.c] starts with a NUL byte, [b.py] is empty,
    [gone.md] has vanished; every other file holds a line of text. *)
Definition demo_fs : filesystem :=
  {| fs_tree := fun p => if decide (p = demo_root) then Some demo_tree else None;
     fs_stat := fun p =>
       if decide (name p = "big.rs") then Some 614400
       else if decide (name p = "gone.md") then None
       else if decide (name p = "b.py") then Some 0
       else Some 10;
     fs_read := fun p =>
       if decide (name p = "bin.c") then Some [x00; x41; x42]
       else if decide (name p = "gone.md") then None
       else if decide (name p = "b.py") then Some []
       else Some (list_byte_of_string ("print(1)" +:+ nl)) |}.

Definition demo_args : Args :=
  {| root := demo_root; output := ["tmp"; "project_context.md"]; max_kb := 512;
     include_hidden := false; extra_dirs := []; only_exts := [] |}.

(** What the sample run leaves behind. *)
Definition demo_summary : RunSummary :=
  Eval vm_compute in
    match value (main ascii_decode demo_args demo_fs) with
    | Completed s => s
    | RootNotFound _ =>
        {| collected_paths := [];
           final := {| lines := []; included_count := 0; skipped_for_size := 0;
                       skipped_as_binary := 0 |};
           output_file := []; document := ""; stdout := "" |}
    end.



(** The sample project collated with dotless [--only-exts] entries. *)
Definition demo_dotless_args : Args :=
  {| root := demo_root; output := ["tmp"; "project_context.md"]; max_kb := 512;
     include_hidden := true; extra_dirs := []; only_exts := ["rs"; "TOML"; "py"] |}.

Definition demo_dotless_summary : RunSummary :=
  Eval vm_compute in
    match value (main ascii_decode demo_dotless_args demo_fs) with
    | Completed s => s
    | RootNotFound _ => demo_summary
    end.

(** The sample project collated with [--only-exts ""]: one empty entry. *)
Definition demo_empty_entry_args : Args :=
  {| root := demo_root; output := ["tmp"; "project_context.md"]; max_kb := 512;
     include_hidden := false; extra_dirs := []; only_exts := [""] |}.




(** * Properties *)

(** ** The primitives on sample inputs *)

Example suffix_examples :
  PyPath.suffix_of_name "main.rs" = ".rs" /\
  PyPath.suffix_of_name ".gitignore" = "" /\
  PyPath.suffix_of_name "a.tar.gz" = ".gz" /\
  PyPath.suffix_of_name "Makefile" = "" /\
  PyPath.suffix_of_name "trailing." = "" /\
  PyPath.suffix_of_name ".x.gitignore" = ".gitignore".
Proof. repeat split. Qed.

Example str_examples :
  PyPath.str ["home"; "u"; "a.txt"] = "/home/u/a.txt" /\
  PyStr.lower "A.TXT-z[@" = "a.txt-z[@" /\
  PyStr.rstrip_nl ("a" +:+ String "010" (String "010" "")) = "a" /\
  PyStr.str_of_int 512 = "512" /\ PyStr.str_of_int (-3) = "-3" /\
  PyStr.str_of_int 0 = "0".
Proof. repeat split. Qed.

Example human_kilobytes_examples :
  human_kilobytes 0 = "0.0 KB" /\ human_kilobytes 10 = "0.0 KB" /\
  human_kilobytes 52 = "0.1 KB" /\ human_kilobytes 256 = "0.2 KB" /\
  human_kilobytes 768 = "0.8 KB" /\ human_kilobytes 614400 = "600.0 KB".
Proof. repeat split. Qed.

(** ** The order on sort keys *)










(** ** The sort: a sorted, stable permutation *)

Section SortFacts.

Context {A : Type} (key : A -> string).

Lemma insert_by_key_perm (x : A) (l : list A) :
  insert_by_key key x l ≡ₚ x :: l.
Proof.
  induction l as [|y l IH]; simpl; [reflexivity|].
  destruct (String.leb (key x) (key y)); [reflexivity|].
  rewrite IH. apply Permutation_swap.
Qed.

Lemma sort_by_key_perm (l : list A) : sort_by_key key l ≡ₚ l.
Proof.
  induction l as [|x l IH]; simpl; [reflexivity|].
  rewrite insert_by_key_perm. now rewrite IH.
Qed.






End SortFacts.

(** ** Facts about the writer monad *)

Lemma value_bind {A B} (m : Eff A) (k : A -> Eff B) :
  value (bind m k) = value (k (value m)).
Proof. unfold bind, value. destruct m as [a l1]. simpl. now destruct (k a). Qed.

Lemma log_bind {A B} (m : Eff A) (k : A -> Eff B) :
  log (bind m k) = log m ++ log (k (value m)).
Proof. unfold bind, value, log. destruct m as [a l1]. simpl. now destruct (k a). Qed.

(** ** The walker, characterised *)

Lemma name_child (current_path : Path) (filename : string) :
  name (child current_path filename) = filename.
Proof. unfold name, child. apply List.last_last. Qed.

Lemma suffix_child (current_path : Path) (filename : string) :
  suffix (child current_path filename) = suffix_of_name filename.
Proof. unfold suffix. now rewrite name_child. Qed.

Lemma in_filenames_of (f : string) (cs : list node) :
  In f (filenames_of cs) <-> In (File f) cs.
Proof.
  unfold filenames_of. rewrite in_flat_map. split.
  - intros [[g|d sub] [Hc Hf]]; simpl in Hf; [|tauto].
    destruct Hf as [->|[]]. exact Hc.
  - intros H. exists (File f). split; [exact H|now left].
Qed.

Lemma in_dirnames_of (d : string) (cs : list node) :
  In d (dirnames_of cs) <-> exists sub, In (Dir d sub) cs.
Proof.
  unfold dirnames_of. rewrite in_flat_map. split.
  - intros [[g|d' sub] [Hc Hd]]; simpl in Hd; [tauto|].
    destruct Hd as [->|[]]. now exists sub.
  - intros [sub H]. exists (Dir d sub). split; [exact H|now left].
Qed.

Section WalkerFacts.

Variable excluded_directories : gset string.
Variable allowed_extensions : gset string.
Variable include_hidden : bool.

(** The pruning loop keeps exactly the names accepted by [dir_kept], in
    their order: pruning [dirnames] in place and deciding name by name are
    the same thing. *)
Lemma prune_dirnames_filter (names : list string) :
  prune_dirnames excluded_directories include_hidden names
  = List.filter (dir_kept excluded_directories include_hidden) names.
Proof.
  induction names as [|d names IH]; simpl; [reflexivity|].
  unfold dir_kept at 1. rewrite IH.
  destruct (bool_decide (d ∈ excluded_directories)); [reflexivity|].
  now destruct (negb include_hidden && PyStr.startswith_dot d).
Qed.

Lemma dir_kept_true (d : string) :
  dir_kept excluded_directories include_hidden d = true <->
  (d ∉ excluded_directories) /\ (include_hidden = true \/ PyStr.startswith_dot d = false).
Proof.
  unfold dir_kept. case_bool_decide as Hin.
  - split; [discriminate|tauto].
  - destruct include_hidden, (PyStr.startswith_dot d); simpl; intuition congruence.
Qed.

Lemma collect_files_filter (current_path : Path) (names : list string) :
  collect_files allowed_extensions include_hidden current_path names
  = List.map (child current_path) (List.filter (file_selected allowed_extensions include_hidden) names).
Proof.
  induction names as [|f names IH]; simpl; [reflexivity|].
  unfold file_selected at 1, should_include_file. rewrite suffix_child, IH.
  destruct (negb include_hidden && PyStr.startswith_dot f
            && negb (bool_decide (suffix_of_name f ∈ HIDDEN_EXEMPT_SUFFIXES)));
    simpl; [reflexivity|].
  now destruct (bool_decide (PyStr.lower (suffix_of_name f) ∈ allowed_extensions)).
Qed.

(** [os.walk] lists exactly the directories reached through (dir_kept excluded_directories include_hidden) names. *)
Lemma in_os_walk (keep : string -> bool) (tree : node) :
  forall (top : Path) (y : walk_yield),
    In y (os_walk keep top tree) <->
    exists ds cs,
      dir_at tree ds cs /\ Forall (fun d => keep d = true) ds /\
      y = {| current_dir := top ++ ds;
             dirnames := dirnames_of cs; filenames := filenames_of cs |}.
Proof.
  induction tree as [f|name cs IH] using node_ind; intros top y; simpl.
  - split; [tauto|]. intros (ds & cs & H & _). inversion H.
  - rewrite in_flat_map. split.
    + intros [<-|(c & Hc & Hy)].
      * exists [], cs. rewrite List.app_nil_r. repeat split; constructor.
      * destruct c as [f|d sub]; [destruct Hy|].
        destruct (keep d) eqn:Hd; [|destruct Hy].
        rewrite List.Forall_forall in IH. apply (IH _ Hc) in Hy.
        destruct Hy as (ds & cs' & Hat & Hk & ->).
        exists (d :: ds), cs'. split; [econstructor; eassumption|].
        split; [now constructor|].
        unfold child. now rewrite <- List.app_assoc.
    + intros (ds & cs' & Hat & Hk & ->).
      inversion Hat as [|? ? d sub ds' ? Hin Hsub]; subst.
      * left. now rewrite List.app_nil_r.
      * right. exists (Dir d sub). split; [exact Hin|].
        apply Forall_cons in Hk as [Hd Hk]. rewrite Hd.
        rewrite List.Forall_forall in IH. apply (IH _ Hin).
        exists ds', cs'. repeat split; try assumption.
        unfold child. now rewrite <- List.app_assoc.
Qed.

(** A path is collected exactly when it is a selected file of a directory
    reached through (dir_kept excluded_directories include_hidden) names. *)
Lemma in_collect_paths (root_dir : Path) (tree : node) (p : Path) :
  In p (collect_paths excluded_directories allowed_extensions include_hidden root_dir tree)
  <-> exists ds cs f,
        dir_at tree ds cs /\ Forall (fun d => (dir_kept excluded_directories include_hidden) d = true) ds /\
        In (File f) cs /\ (file_selected allowed_extensions include_hidden) f = true /\
        p = root_dir ++ ds ++ [f].
Proof.
  unfold collect_paths. rewrite in_flat_map. split.
  - intros (y & Hy & Hp). apply in_os_walk in Hy as (ds & cs & Hat & Hk & ->).
    simpl in Hp. rewrite collect_files_filter, List.in_map_iff in Hp.
    destruct Hp as (f & <- & Hf). apply List.filter_In in Hf as [Hf Hsel].
    exists ds, cs, f. rewrite in_filenames_of in Hf.
    repeat split; try assumption. unfold child. now rewrite <- List.app_assoc.
  - intros (ds & cs & f & Hat & Hk & Hf & Hsel & ->).
    eexists. split; [apply in_os_walk; exists ds, cs; eauto|].
    simpl. rewrite collect_files_filter, List.in_map_iff.
    exists f. split; [unfold child; now rewrite <- List.app_assoc|].
    apply List.filter_In. split; [now apply in_filenames_of|exact Hsel].
Qed.

End WalkerFacts.

(** What the walker returns and logs, when the root exists. *)
Lemma walk_project_value fs root_dir excl allowed hid tree :
  fs_tree fs root_dir = Some tree ->
  value (walk_project fs root_dir excl allowed hid)
  = sort_by_key path_key (collect_paths excl allowed hid root_dir tree).
Proof. unfold walk_project. now intros ->. Qed.

Lemma walk_project_log fs root_dir excl allowed hid tree :
  fs_tree fs root_dir = Some tree ->
  log (walk_project fs root_dir excl allowed hid)
  = List.map (fun y => OpScandir (current_dir y))
      (os_walk (dir_kept excl hid) root_dir tree).
Proof. unfold walk_project. now intros ->. Qed.

Lemma in_walk_project fs root_dir excl allowed hid tree p :
  fs_tree fs root_dir = Some tree ->
  In p (value (walk_project fs root_dir excl allowed hid))
  <-> In p (collect_paths excl allowed hid root_dir tree).
Proof.
  intros H. rewrite (walk_project_value _ _ _ _ _ _ H).
  rewrite <- !list_elem_of_In. now rewrite sort_by_key_perm.
Qed.

(** ** The binary detector *)

Lemma is_probably_binary_value fs p :
  value (is_probably_binary fs p)
  = match fs_read fs p with
    | None => true
    | Some data => binary_verdict (List.firstn SAMPLE_BYTES data)
    end.
Proof.
  unfold is_probably_binary, open_sample, bind, value, ret.
  now destruct (fs_read fs p).
Qed.

Lemma is_probably_binary_log fs p :
  log (is_probably_binary fs p) = [OpOpenSample p].
Proof.
  unfold is_probably_binary, open_sample, bind, log, ret.
  now destruct (fs_read fs p).
Qed.

Lemma has_nul_In (chunk : list byte) : has_nul chunk = true <-> In x00 chunk.
Proof.
  unfold has_nul. rewrite List.existsb_exists. split.
  - intros (b & Hb & Heq). apply Byte.byte_dec_bl in Heq. now subst.
  - intros H. exists x00. split; [exact H|reflexivity].
Qed.

Lemma is_control_byte_spec (b : byte) :
  is_control_byte b = true <->
  (Z.of_N (Byte.to_N b) < 9 \/ 13 < Z.of_N (Byte.to_N b) < 32).
Proof.
  unfold is_control_byte.
  rewrite orb_true_iff, andb_true_iff, !Z.ltb_lt. tauto.
Qed.

Lemma sample_length (data : list byte) :
  Z.of_nat (List.length (List.firstn SAMPLE_BYTES data)) <= 8192.
Proof. rewrite List.length_firstn. unfold SAMPLE_BYTES. lia. Qed.

(** The integer value of a byte, [0..255]. *)
Lemma control_bytes_count (chunk : list byte) :
  control_bytes chunk
  = Z.of_nat (List.length
      (filter (fun b => Z.of_N (Byte.to_N b) < 9 \/ 13 < Z.of_N (Byte.to_N b) < 32)
              chunk)).
Proof.
  unfold control_bytes. f_equal. f_equal.
  induction chunk as [|b chunk IH]; [reflexivity|].
  rewrite filter_cons. simpl. rewrite IH.
  destruct (is_control_byte b) eqn:Hb; case_decide as Hd; try reflexivity.
  - apply is_control_byte_spec in Hb. tauto.
  - apply is_control_byte_spec in Hd. congruence.
Qed.

(** C3.  The sample is the first 8192 bytes of the file at most.  A
    failed open or read gives [True].  A sample with a NUL byte gives
    [True]; otherwise an empty sample gives [False]; otherwise the answer
    is [True] exactly when the fraction of bytes whose value is below 9 or
    strictly between 13 and 32 is greater than 3/10. *)
Theorem is_probably_binary_spec (fs : filesystem) (p : Path) :
  (fs_read fs p = None -> value (is_probably_binary fs p) = true) /\
  (forall data, fs_read fs p = Some data ->
     let chunk := List.firstn SAMPLE_BYTES data in
     let verdict := value (is_probably_binary fs p) in
     let control :=
       filter (fun b => Z.of_N (Byte.to_N b) < 9 \/ 13 < Z.of_N (Byte.to_N b) < 32)
              chunk in
     Z.of_nat (List.length chunk) <= 8192 /\
     (In x00 chunk -> verdict = true) /\
     (~ In x00 chunk -> chunk = [] -> verdict = false) /\
     (~ In x00 chunk -> chunk <> [] ->
        (verdict = true <->
         (3 # 10 < Z.of_nat (List.length control) # Pos.of_nat (List.length chunk))%Q))).
Proof.
  split.
  - intros H. now rewrite is_probably_binary_value, H.
  - intros data H. cbv zeta. rewrite is_probably_binary_value, H.
    split; [apply sample_length|].
    generalize (List.firstn SAMPLE_BYTES data). intros chunk.
    unfold binary_verdict.
    split; [|split].
    + intros Hin. apply has_nul_In in Hin. now rewrite Hin.
    + intros Hnin ->. reflexivity.
    + intros Hnin Hne.
      destruct (has_nul chunk) eqn:Hnul; [apply has_nul_In in Hnul; tauto|].
      assert (Hlen : List.length chunk <> 0%nat) by (now destruct chunk).
      replace (match chunk with
               | [] => false
               | _ :: _ => 3 * Z.of_nat (List.length chunk) <? 10 * control_bytes chunk
               end)
        with (3 * Z.of_nat (List.length chunk) <? 10 * control_bytes chunk)
        by (now destruct chunk).
      rewrite Z.ltb_lt, control_bytes_count.
      unfold Qlt. cbn [Qnum Qden]. lia.
Qed.

(** ** The order of the candidates *)


(** ** Excluded directories *)

Lemma relative_to_app (root_dir rel : list string) :
  relative_to (root_dir ++ rel) root_dir = rel.
Proof. unfold relative_to. now rewrite List.skipn_app, List.skipn_all, Nat.sub_diag. Qed.

Lemma prune_tree_Dir keep d cs :
  prune_tree keep (Dir d cs) = Dir d (List.map (prune_child keep) cs).
Proof. reflexivity. Qed.

Lemma dirnames_of_prune keep cs :
  dirnames_of (List.map (prune_child keep) cs) = dirnames_of cs.
Proof.
  induction cs as [|[f|d sub] cs IH]; simpl; [reflexivity|exact IH|].
  unfold dirnames_of in *. destruct (keep d); simpl; now rewrite IH.
Qed.

Lemma filenames_of_prune keep cs :
  filenames_of (List.map (prune_child keep) cs) = filenames_of cs.
Proof.
  induction cs as [|[f|d sub] cs IH]; simpl; [reflexivity| |].
  - unfold filenames_of in *. simpl. now rewrite IH.
  - unfold filenames_of in *. destruct (keep d); simpl; now rewrite IH.
Qed.

(** A walk does not depend on anything below a directory it rejects:
    pruning the tree with a decision that rejects no more than the walk
    does leaves the walk unchanged. *)
Lemma os_walk_prune_tree (keep keep' : string -> bool) (tree : node) :
  (forall d, keep d = true -> keep' d = true) ->
  forall top, os_walk keep top (prune_tree keep' tree) = os_walk keep top tree.
Proof.
  intros Hk. induction tree as [f|name cs IH] using node_ind; intros top.
  - reflexivity.
  - rewrite prune_tree_Dir. simpl.
    rewrite dirnames_of_prune, filenames_of_prune. f_equal.
    induction cs as [|c cs IHcs]; [reflexivity|].
    apply Forall_cons in IH as [Hc IH]. simpl.
    rewrite (IHcs IH). f_equal.
    destruct c as [f|d sub]; [reflexivity|]. unfold prune_child.
    destruct (keep d) eqn:Hd.
    + rewrite (Hk d Hd). rewrite <- (Hc (child top d)).
      rewrite prune_tree_Dir. simpl. now rewrite Hd.
    + destruct (keep' d).
      * rewrite prune_tree_Dir. now rewrite Hd.
      * now rewrite Hd.
Qed.

Lemma dir_kept_not_excluded excl hid (ds : list string) :
  Forall (fun d => dir_kept excl hid d = true) ds -> Forall (fun d => d ∉ excl) ds.
Proof.
  apply List.Forall_impl. intros d Hd. now apply dir_kept_true in Hd as [Hd _].
Qed.

(** C5.  Directory names are those of directories below the root, the
    place where the walk starts.  No candidate lies below a directory whose
    name is excluded, at any depth; no such directory, and nothing below
    one, is ever listed; an excluded name is dropped by the pruning loop
    whatever the hidden-directory setting and whether or not it starts
    with a dot; and the result and the log of the walk are the same when
    everything below the excluded directories is removed from the tree. *)
Theorem excluded_directories_never_entered
    (fs : filesystem) (root_dir : Path) (excl allowed : gset string) (hid : bool) :
  let run := walk_project fs root_dir excl allowed hid in
  (forall p, In p (value run) ->
     p = root_dir ++ relative_to p root_dir /\
     Forall (fun d => d ∉ excl) (List.removelast (relative_to p root_dir))) /\
  (forall q, In (OpScandir q) (log run) ->
     q = root_dir ++ relative_to q root_dir /\
     Forall (fun d => d ∉ excl) (relative_to q root_dir)) /\
  (forall names d, d ∈ excl ->
     ~ In d (prune_dirnames excl hid names) /\
     dir_kept excl true d = false /\ dir_kept excl false d = false) /\
  (forall fs',
     fs_tree fs' root_dir
     = prune_tree (fun d => negb (bool_decide (d ∈ excl))) <$> fs_tree fs root_dir ->
     walk_project fs' root_dir excl allowed hid = run).
Proof.
  cbv zeta. split; [|split; [|split]].
  - intros p Hp. destruct (fs_tree fs root_dir) as [tree|] eqn:Htree.
    + apply (in_walk_project _ _ _ _ _ _ _ Htree) in Hp.
      apply in_collect_paths in Hp as (ds & cs & f & _ & Hk & _ & _ & ->).
      rewrite relative_to_app, List.removelast_last.
      split; [reflexivity|]. now apply dir_kept_not_excluded with hid.
    + unfold walk_project in Hp. rewrite Htree in Hp. destruct Hp.
  - intros q Hq. destruct (fs_tree fs root_dir) as [tree|] eqn:Htree.
    + rewrite (walk_project_log _ _ _ _ _ _ Htree), List.in_map_iff in Hq.
      destruct Hq as (y & Hy & Hin). injection Hy as <-.
      apply in_os_walk in Hin as (ds & cs & _ & Hk & ->). simpl.
      rewrite relative_to_app.
      split; [reflexivity|]. now apply dir_kept_not_excluded with hid.
    + unfold walk_project in Hq. rewrite Htree in Hq. destruct Hq.
  - intros names d Hd. split; [|split].
    + rewrite prune_dirnames_filter, List.filter_In. intros [_ Hk].
      apply dir_kept_true in Hk as [Hk _]. contradiction.
    + unfold dir_kept. now rewrite bool_decide_eq_true_2.
    + unfold dir_kept. now rewrite bool_decide_eq_true_2.
  - intros fs' Hfs'. unfold walk_project. rewrite Hfs'.
    destruct (fs_tree fs root_dir) as [tree|]; [|reflexivity]. simpl.
    unfold collect_paths.
    rewrite (os_walk_prune_tree (dir_kept excl hid)
               (fun d => negb (bool_decide (d ∈ excl))) tree); [reflexivity|].
    intros d Hd. apply dir_kept_true in Hd as [Hd _].
    now rewrite bool_decide_eq_false_2.
Qed.

(** ** The loader and the body loop, case by case *)

Lemma read_text_safely_cases fs decode p max_bytes :
  read_text_safely fs decode p max_bytes
  = match fs_stat fs p with
    | None => (None, [OpStat p])
    | Some st_size =>
        if max_bytes <? st_size then (None, [OpStat p])
        else match fs_read fs p with
             | None => (None, [OpStat p; OpOpenSample p])
             | Some data =>
                 if binary_verdict (List.firstn SAMPLE_BYTES data)
                 then (None, [OpStat p; OpOpenSample p])
                 else (Some (decode data), [OpStat p; OpOpenSample p; OpReadText p])
             end
    end.
Proof.
  unfold read_text_safely, is_probably_binary, open_sample, read_text, stat_size, bind, ret.
  destruct (fs_stat fs p) as [st_size|]; [|reflexivity].
  destruct (max_bytes <? st_size); [reflexivity|].
  destruct (fs_read fs p) as [data|]; [|reflexivity].
  cbn [fmap option_fmap option_map].
  destruct (binary_verdict (List.firstn SAMPLE_BYTES data)); reflexivity.
Qed.

Lemma process_file_cases fs decode project_root maximum_bytes st p :
  process_file fs decode project_root maximum_bytes st p
  = match fs_stat fs p with
    | None => (count_binary st, [OpStat p; OpStat p])
    | Some st_size =>
        if maximum_bytes <? st_size
        then (count_too_large st, [OpStat p; OpStat p])
        else match fs_read fs p with
             | None => (count_binary st, [OpStat p; OpOpenSample p; OpStat p])
             | Some data =>
                 if binary_verdict (List.firstn SAMPLE_BYTES data)
                 then (count_binary st, [OpStat p; OpOpenSample p; OpStat p])
                 else (emit_section project_root st p (decode data),
                       [OpStat p; OpOpenSample p; OpReadText p])
             end
    end.
Proof.
  unfold process_file. rewrite read_text_safely_cases.
  unfold stat_size, bind, ret.
  destruct (fs_stat fs p) as [st_size|]; [|reflexivity].
  destruct (maximum_bytes <? st_size); cbv beta iota; [reflexivity|].
  destruct (fs_read fs p) as [data|]; [|reflexivity].
  destruct (binary_verdict (List.firstn SAMPLE_BYTES data)); reflexivity.
Qed.

Lemma for_each_cons {S X} (body : S -> X -> Eff S) x xs st :
  for_each body (x :: xs) st = bind (body st x) (for_each body xs).
Proof. reflexivity. Qed.

Lemma in_log_for_each {S X} (body : S -> X -> Eff S) xs st op :
  In op (log (for_each body xs st)) ->
  exists st' x, In x xs /\ In op (log (body st' x)).
Proof.
  revert st. induction xs as [|x xs IH]; intros st; [intros []|].
  rewrite for_each_cons, log_bind, List.in_app_iff. intros [H|H].
  - exists st, x. split; [now left|exact H].
  - apply IH in H as (st' & y & Hy & H). exists st', y. split; [now right|exact H].
Qed.

Section BodyLoop.

Variable fs : filesystem.
Variable decode : list byte -> string.
Variable project_root : Path.
Variable maximum_bytes : Z.

#[local] Abbreviation body := (process_file fs decode project_root maximum_bytes).

(** One iteration adds one to exactly one counter. *)
Lemma process_file_counts st p :
  let '(i, z, b) := counters st in
  let c' := counters (value (body st p)) in
  c' = (S i, z, b) \/ c' = (i, S z, b) \/ c' = (i, z, S b).
Proof.
  rewrite process_file_cases. unfold counters, value.
  destruct (fs_stat fs p) as [sz|]; [|now right; right].
  destruct (maximum_bytes <? sz); [now right; left|].
  destruct (fs_read fs p) as [data|]; [|now right; right].
  destruct (binary_verdict _); [now right; right|now left].
Qed.

Lemma process_file_total st p :
  let '(i, z, b) := counters (value (body st p)) in
  let '(i0, z0, b0) := counters st in
  (i + z + b = S (i0 + z0 + b0))%nat.
Proof.
  pose proof (process_file_counts st p) as H. unfold counters in *.
  destruct H as [H|[H|H]]; injection H as -> -> ->; lia.
Qed.

Lemma for_each_total xs st :
  let '(i, z, b) := counters (value (for_each body xs st)) in
  let '(i0, z0, b0) := counters st in
  (i + z + b = i0 + z0 + b0 + List.length xs)%nat.
Proof.
  revert st. induction xs as [|x xs IH]; intros st.
  - unfold counters. simpl. lia.
  - rewrite for_each_cons, value_bind.
    specialize (IH (value (body st x))).
    pose proof (process_file_total st x) as H.
    unfold counters in *. simpl List.length. lia.
Qed.

Lemma for_each_too_large xs st :
  skipped_for_size (value (for_each body xs st))
  = (skipped_for_size st
     + List.length (List.filter (is_too_large fs maximum_bytes) xs))%nat.
Proof.
  revert st. induction xs as [|x xs IH]; intros st.
  - simpl. lia.
  - rewrite for_each_cons, value_bind, IH. simpl List.filter.
    rewrite process_file_cases. unfold is_too_large, value.
    destruct (fs_stat fs x) as [sz|]; [|simpl; lia].
    destruct (maximum_bytes <? sz); [simpl; lia|].
    destruct (fs_read fs x) as [data|]; [|simpl; lia].
    destruct (binary_verdict _); simpl; lia.
Qed.

(** The calls made for one candidate concern that candidate only, start
    with [stat], and open or read the file only when it is not too large. *)
Lemma process_file_log st q op :
  In op (log (body st q)) ->
  op = OpStat q \/
  ((op = OpOpenSample q \/ op = OpReadText q) /\ is_too_large fs maximum_bytes q = false).
Proof.
  rewrite process_file_cases. unfold is_too_large, log.
  destruct (fs_stat fs q) as [sz|]; [|simpl; intuition].
  destruct (maximum_bytes <? sz); [simpl; intuition|].
  destruct (fs_read fs q) as [data|]; [|simpl; intuition].
  destruct (binary_verdict _); simpl; intuition.
Qed.

End BodyLoop.

Lemma toc_entry_log fs project_root acc q op :
  In op (log (toc_entry fs project_root acc q)) -> op = OpStat q.
Proof.
  unfold toc_entry, stat_size, bind, ret, log.
  destruct (fs_stat fs q); simpl; intuition.
Qed.

Lemma walk_project_log_scandir fs root_dir excl allowed hid op :
  In op (log (walk_project fs root_dir excl allowed hid)) -> exists q, op = OpScandir q.
Proof.
  unfold walk_project. destruct (fs_tree fs root_dir); [|intros []].
  unfold log. simpl. rewrite List.in_map_iff. intros (y & <- & _). eauto.
Qed.

(** ** A completed run, taken apart *)

Lemma main_completed decode args fs s :
  value (main decode args fs) = Completed s ->
  let collected :=
    value (walk_project fs (root args) (excluded_directories_of args)
             (allowed_extensions_of args) (include_hidden args)) in
  exists start toc_log,
    counters start = (0, 0, 0)%nat /\
    collected_paths s = collected /\
    final s = value (for_each (process_file fs decode (root args) (max_kb args * 1024))
                       collected start) /\
    log (main decode args fs)
    = log (walk_project fs (root args) (excluded_directories_of args)
             (allowed_extensions_of args) (include_hidden args))
      ++ toc_log
      ++ log (for_each (process_file fs decode (root args) (max_kb args * 1024))
                collected start) /\
    (forall op, In op toc_log -> exists q, op = OpStat q).
Proof.
  unfold main. cbv zeta.
  destruct (fs_tree fs (root args)) as [tree|]; [|discriminate].
  rewrite !value_bind, !log_bind. unfold ret at 1. unfold value at 1.
  cbn [fst]. intros H. injection H as <-.
  eexists. eexists. cbn [collected_paths final].
  split; [|split; [reflexivity|split; [reflexivity|split]]].
  - reflexivity.
  - f_equal. f_equal. apply List.app_nil_r.
  - intros op Hop. apply in_log_for_each in Hop as (acc & q & _ & Hop).
    apply toc_entry_log in Hop. eauto.
Qed.

(** ** The counters *)

(** C1.  In a run that completes, the candidates are the walker's sorted
    list, the three counters add up to its length, the final state is the
    result of the body loop started with all counters at zero, each
    iteration adds one to exactly one counter, and a candidate whose
    [stat] fails, or whose file is opened and cannot be read, is counted
    under [skipped_as_binary]. *)
Theorem main_counts_every_candidate
    (decode : list byte -> string) (args : Args) (fs : filesystem) (s : RunSummary)
    (Hrun : value (main decode args fs) = Completed s) :
  let step := process_file fs decode (root args) (max_kb args * 1024) in
  collected_paths s
  = value (walk_project fs (root args) (excluded_directories_of args)
             (allowed_extensions_of args) (include_hidden args)) /\
  (included_count (final s) + skipped_for_size (final s) + skipped_as_binary (final s)
   = List.length (collected_paths s))%nat /\
  (exists start,
     counters start = (0, 0, 0)%nat /\
     final s = value (for_each step (collected_paths s) start)) /\
  (forall st p,
     let '(i, z, b) := counters st in
     let c' := counters (value (step st p)) in
     c' = (S i, z, b) \/ c' = (i, S z, b) \/ c' = (i, z, S b)) /\
  (forall st p,
     fs_stat fs p = None ->
     value (step st p) = count_binary st) /\
  (forall st p,
     fs_read fs p = None -> In (OpOpenSample p) (log (step st p)) ->
     value (step st p) = count_binary st).
Proof.
  cbv zeta.
  destruct (main_completed _ _ _ _ Hrun) as (start & toc_log & H0 & Hc & Hf & _ & _).
  split; [exact Hc|]. split; [|split; [|split; [|split]]].
  - pose proof (for_each_total fs decode (root args) (max_kb args * 1024)
                  (collected_paths s) start) as Ht.
    rewrite Hc in *. rewrite <- Hf in Ht. rewrite H0 in Ht.
    unfold counters in Ht. lia.
  - exists start. rewrite Hc. split; [exact H0|exact Hf].
  - intros st p. apply process_file_counts.
  - intros st p Hstat. rewrite process_file_cases, Hstat. reflexivity.
  - intros st p Hread. rewrite process_file_cases, Hread. unfold value, log.
    destruct (fs_stat fs p) as [sz|]; [|reflexivity].
    destruct (max_kb args * 1024 <? sz); [|reflexivity].
    simpl. intros [H|[H|[]]]; discriminate.
Qed.

Lemma main_counts_every_candidate_witness :
  value (main ascii_decode demo_args demo_fs) = Completed demo_summary /\
  (included_count (final demo_summary) + skipped_for_size (final demo_summary)
   + skipped_as_binary (final demo_summary)
   = List.length (collected_paths demo_summary))%nat /\
  counters (final demo_summary) = (7, 1, 2)%nat.
Proof.
  assert (H : value (main ascii_decode demo_args demo_fs) = Completed demo_summary)
    by (vm_compute; reflexivity).
  split; [exact H|]. split; [|vm_compute; reflexivity].
  exact (proj1 (proj2 (main_counts_every_candidate _ _ _ _ H))).
Defined.

(** ** Files over the size limit *)

(** C6.  For a candidate whose size exceeds the limit, the loader returns
    [None] after a single [stat]; the loader always starts with [stat];
    the body loop counts the candidate under [skipped_for_size]; in the
    whole run the file is neither opened for sampling nor read; and the
    final [skipped_for_size] is the number of candidates over the limit. *)
Theorem too_large_never_opened
    (decode : list byte -> string) (args : Args) (fs : filesystem) (s : RunSummary)
    (p : Path) (size : Z)
    (Hrun : value (main decode args fs) = Completed s)
    (Hcand : In p (collected_paths s))
    (Hsize : fs_stat fs p = Some size)
    (Hbig : max_kb args * 1024 < size) :
  let maximum_bytes := max_kb args * 1024 in
  read_text_safely fs decode p maximum_bytes = (None, [OpStat p]) /\
  (forall q, exists rest,
     log (read_text_safely fs decode q maximum_bytes) = OpStat q :: rest) /\
  (forall st,
     process_file fs decode (root args) maximum_bytes st p
     = (count_too_large st, [OpStat p; OpStat p])) /\
  ~ In (OpOpenSample p) (log (main decode args fs)) /\
  ~ In (OpReadText p) (log (main decode args fs)) /\
  In p (List.filter (is_too_large fs maximum_bytes) (collected_paths s)) /\
  skipped_for_size (final s)
  = List.length (List.filter (is_too_large fs maximum_bytes) (collected_paths s)).
Proof.
  cbv zeta. apply Z.ltb_lt in Hbig.
  assert (Hlarge : is_too_large fs (max_kb args * 1024) p = true)
    by (unfold is_too_large; now rewrite Hsize).
  destruct (main_completed _ _ _ _ Hrun) as (start & toc_log & H0 & Hc & Hf & Hlog & Htoc).
  assert (Hnot : forall op, op = OpOpenSample p \/ op = OpReadText p ->
                            ~ In op (log (main decode args fs))).
  { intros op Hop. rewrite Hlog, !List.in_app_iff. intros [H|[H|H]].
    - apply walk_project_log_scandir in H as [q ->]. destruct Hop; discriminate.
    - apply Htoc in H as [q ->]. destruct Hop; discriminate.
    - apply in_log_for_each in H as (st' & q & _ & H).
      apply process_file_log in H as [->|[H Hq]]; [destruct Hop; discriminate|].
      assert (q = p) by (destruct H as [->| ->], Hop as [Hop|Hop]; congruence).
      subst q. congruence. }
  split; [|split; [|split; [|split; [|split; [|split]]]]].
  - rewrite read_text_safely_cases, Hsize, Hbig. reflexivity.
  - intros q. rewrite read_text_safely_cases. unfold log.
    destruct (fs_stat fs q) as [sz|]; [|eexists; reflexivity].
    destruct (max_kb args * 1024 <? sz); [eexists; reflexivity|].
    destruct (fs_read fs q) as [data|]; [|eexists; reflexivity].
    destruct (binary_verdict _); eexists; reflexivity.
  - intros st. rewrite process_file_cases, Hsize, Hbig. reflexivity.
  - apply Hnot. now left.
  - apply Hnot. now right.
  - apply List.filter_In. split; [exact Hcand|exact Hlarge].
  - rewrite Hf, for_each_too_large, Hc.
    unfold counters in H0. injection H0 as _ -> _. reflexivity.
Qed.

Lemma too_large_never_opened_witness :
  let p := ["home"; "proj"; "src"; "big.rs"] in
  read_text_safely demo_fs ascii_decode p (512 * 1024) = (None, [OpStat p]) /\
  ~ In (OpOpenSample p) (log (main ascii_decode demo_args demo_fs)) /\
  skipped_for_size (final demo_summary) = 1%nat.
Proof.
  assert (Hrun : value (main ascii_decode demo_args demo_fs) = Completed demo_summary)
    by (vm_compute; reflexivity).
  assert (Hcand : In ["home"; "proj"; "src"; "big.rs"] (collected_paths demo_summary))
    by (vm_compute; tauto).
  assert (Hsize : fs_stat demo_fs ["home"; "proj"; "src"; "big.rs"] = Some 614400)
    by (vm_compute; reflexivity).
  assert (Hbig : max_kb demo_args * 1024 < 614400) by (vm_compute; reflexivity).
  pose proof (too_large_never_opened ascii_decode demo_args demo_fs demo_summary
                ["home"; "proj"; "src"; "big.rs"] 614400 Hrun Hcand Hsize Hbig)
    as (H1 & _ & _ & H4 & _ & _ & _).
  split; [exact H1|]. split; [exact H4|]. vm_compute; reflexivity.
Defined.

(** ** The extension allow-list *)

(** Every candidate has an allowed extension, compared in lower case. *)
Lemma candidate_extension_allowed fs root_dir excl allowed hid p :
  In p (value (walk_project fs root_dir excl allowed hid)) ->
  PyStr.lower (suffix p) ∈ allowed.
Proof.
  intros Hp. destruct (fs_tree fs root_dir) as [tree|] eqn:Htree.
  - apply (in_walk_project _ _ _ _ _ _ _ Htree) in Hp.
    apply in_collect_paths in Hp as (ds & cs & f & _ & _ & _ & Hsel & ->).
    unfold file_selected in Hsel. apply andb_true_iff in Hsel as [_ Hsel].
    apply bool_decide_eq_true in Hsel.
    unfold suffix, name. now rewrite List.app_assoc, List.last_last.
  - unfold walk_project in Hp. rewrite Htree in Hp. destruct Hp.
Qed.

Lemma allowed_extensions_explicit args :
  only_exts args <> [] ->
  allowed_extensions_of args = list_to_set (List.map PyStr.lower (only_exts args)).
Proof. unfold allowed_extensions_of. now destruct (only_exts args). Qed.



(** ** Hidden files *)

(** C2 (the code departs from the claim).  [Path(".gitignore").suffix] is
    the empty string, so the exemption of line 139 never applies to a file
    named [.gitignore], [.gitattributes] or [.editorconfig]: with
    [include_hidden] false such a file is skipped like [.env], and with
    [include_hidden] true it fails the extension test.  Only a hidden file
    with a real suffix, such as [.x.gitignore], is collected. *)
Theorem hidden_gitignore_not_collected (hid : bool) :
  suffix_of_name ".gitignore" = "" /\
  ".gitignore" ∈ DEFAULT_ALLOWED_EXTENSIONS /\
  value (walk_project
           (flat_project [File ".gitignore"; File ".gitattributes";
                          File ".editorconfig"; File ".env"])
           ["proj"] DEFAULT_EXCLUDED_DIRS DEFAULT_ALLOWED_EXTENSIONS hid) = [] /\
  value (walk_project
           (flat_project [File ".gitignore"; File ".env"; File ".x.gitignore"])
           ["proj"] DEFAULT_EXCLUDED_DIRS DEFAULT_ALLOWED_EXTENSIONS false)
  = [["proj"; ".x.gitignore"]].
Proof.
  split; [reflexivity|]. split; [vm_compute; reflexivity|].
  split; [destruct hid; vm_compute; reflexivity|vm_compute; reflexivity].
Qed.

(** ** Suffixes start with a dot *)

Lemma rfind_from_spec (c : ascii) (s : string) (k : Z) :
  let r := PyStr.rfind_from c s k in
  r = -1 \/ (k <= r /\ exists rest, PyStr.drop (Z.to_nat (r - k)) s = String c rest).
Proof.
  revert k. induction s as [|a s IH]; intros k; simpl; [now left|].
  specialize (IH (k + 1)). cbv zeta in IH.
  destruct (0 <=? PyStr.rfind_from c s (k + 1)) eqn:Hr.
  - apply Z.leb_le in Hr. destruct IH as [IH|[Hle [rest Hrest]]]; [lia|].
    right. split; [lia|]. exists rest.
    replace (Z.to_nat (PyStr.rfind_from c s (k + 1) - k))
      with (S (Z.to_nat (PyStr.rfind_from c s (k + 1) - (k + 1)))) by lia.
    exact Hrest.
  - destruct (Ascii.eqb a c) eqn:Hac; [|now left].
    apply Ascii.eqb_eq in Hac. subst a. right. split; [lia|].
    exists s. now rewrite Z.sub_diag.
Qed.

Lemma suffix_of_name_dot (nm : string) :
  suffix_of_name nm = "" \/ PyStr.startswith_dot (suffix_of_name nm) = true.
Proof.
  unfold suffix_of_name. cbv zeta.
  destruct ((0 <? PyStr.rfind "." nm)
            && (PyStr.rfind "." nm <? Z.of_nat (String.length nm) - 1)) eqn:Hc;
    [|now left].
  right. apply andb_true_iff in Hc as [Hpos _]. apply Z.ltb_lt in Hpos.
  pose proof (rfind_from_spec "." nm 0) as H. cbv zeta in H.
  fold (PyStr.rfind "." nm) in H. destruct H as [H|[_ [rest H]]]; [lia|].
  rewrite Z.sub_0_r in H. now rewrite H.
Qed.

Lemma lower_ascii_dot (c : ascii) :
  Ascii.eqb (PyStr.lower_ascii c) "." = Ascii.eqb c ".".
Proof. destruct c as [[] [] [] [] [] [] [] []]; reflexivity. Qed.

Lemma startswith_dot_lower (s : string) :
  PyStr.startswith_dot (PyStr.lower s) = PyStr.startswith_dot s.
Proof. destruct s as [|c s]; [reflexivity|]. simpl. apply lower_ascii_dot. Qed.

Lemma lower_empty (s : string) : PyStr.lower s = "" -> s = "".
Proof. now destruct s. Qed.

(** A non-empty entry without a leading dot is the lower-cased suffix of
    no file name. *)
Lemma dotless_entry_never_matches (entry filename : string) :
  entry <> "" -> PyStr.startswith_dot entry = false ->
  PyStr.lower (suffix_of_name filename) <> PyStr.lower entry.
Proof.
  intros Hne Hdot Heq. destruct (suffix_of_name_dot filename) as [Hs|Hs].
  - rewrite Hs in Heq. symmetry in Heq. now apply lower_empty in Heq.
  - rewrite <- startswith_dot_lower, Heq, startswith_dot_lower in Hs. congruence.
Qed.

(** ** Allow-list entries without a leading dot *)

(** The claim of C9 as stated fails for the empty entry, which has no
    leading dot: [--only-exts ""] selects the files without a suffix. *)
Lemma dotless_empty_entry_counterexample :
  ~ (forall entry filename,
       PyStr.startswith_dot entry = false ->
       PyStr.lower (suffix_of_name filename) <> PyStr.lower entry) /\
  ~ (forall args fs s,
       only_exts args <> [] ->
       (forall e, In e (only_exts args) -> PyStr.startswith_dot e = false) ->
       value (main ascii_decode args fs) = Completed s ->
       collected_paths s = []).
Proof.
  split.
  - intros H. now apply (H "" "Makefile").
  - intros H.
    assert (Hrun : exists s,
               value (main ascii_decode demo_empty_entry_args demo_fs) = Completed s /\
               collected_paths s = [["home"; "proj"; "Makefile"]])
      by (eexists; split; vm_compute; reflexivity).
    destruct Hrun as (s & Hrun & Hc).
    specialize (H demo_empty_entry_args demo_fs s).
    rewrite Hc in H. discriminate H; [discriminate| |exact Hrun].
    intros e [<-|[]]. reflexivity.
Qed.

(** C9, amended.  Entries are lower-cased and nothing else: the allowed
    set is the set of lower-cased entries.  The suffix of a file name is
    empty or starts with a dot, so a non-empty entry without a leading dot
    matches no file, and a run whose explicit allow-list holds only such
    entries has no candidate. *)
Theorem dotless_entries_match_nothing
    (decode : list byte -> string) (args : Args) (fs : filesystem) (s : RunSummary)
    (Hexts : only_exts args <> [])
    (Hdotless : forall e, In e (only_exts args) ->
                          e <> "" /\ PyStr.startswith_dot e = false)
    (Hrun : value (main decode args fs) = Completed s) :
  collected_paths s = [] /\
  allowed_extensions_of args = list_to_set (List.map PyStr.lower (only_exts args)) /\
  (forall filename,
     suffix_of_name filename = "" \/
     PyStr.startswith_dot (suffix_of_name filename) = true) /\
  (forall entry filename,
     entry <> "" -> PyStr.startswith_dot entry = false ->
     PyStr.lower (suffix_of_name filename) <> PyStr.lower entry).
Proof.
  split; [|split; [now apply allowed_extensions_explicit|split]].
  - destruct (collected_paths s) as [|p ps] eqn:Hc; [reflexivity|exfalso].
    destruct (main_completed _ _ _ _ Hrun) as (_ & _ & _ & Hw & _).
    assert (Hp : In p (collected_paths s)) by (rewrite Hc; now left).
    rewrite Hw in Hp. apply candidate_extension_allowed in Hp.
    rewrite (allowed_extensions_explicit _ Hexts), elem_of_list_to_set in Hp.
    rewrite list_elem_of_In, List.in_map_iff in Hp. destruct Hp as (e & Heq & He).
    destruct (Hdotless e He) as [Hne Hdot].
    symmetry in Heq. revert Heq. now apply dotless_entry_never_matches.
  - apply suffix_of_name_dot.
  - apply dotless_entry_never_matches.
Qed.

Lemma dotless_entries_match_nothing_witness :
  value (main ascii_decode demo_dotless_args demo_fs) = Completed demo_dotless_summary /\
  collected_paths demo_dotless_summary = [].
Proof.
  assert (Hrun : value (main ascii_decode demo_dotless_args demo_fs)
                 = Completed demo_dotless_summary) by (vm_compute; reflexivity).
  split; [exact Hrun|].
  refine (proj1 (dotless_entries_match_nothing ascii_decode demo_dotless_args demo_fs
                   demo_dotless_summary _ _ Hrun)).
  - discriminate.
  - intros e [<-|[<-|[<-|[]]]]; split; (discriminate || reflexivity).
Defined.

(** ** The case of directory names *)

Lemma dir_at_snoc tree ds cs d sub :
  dir_at tree ds cs -> In (Dir d sub) cs -> dir_at tree (ds ++ [d]) sub.
Proof.
  induction 1 as [name cs|name cs d' sub' ds cs' Hin Hat IH]; intros Hd; simpl.
  - econstructor; [exact Hd|constructor].
  - econstructor; [exact Hin|now apply IH].
Qed.

(** The claim of C10 as stated fails for names that start with a dot:
    [.GIT] differs from the entry [.git] by case only and is not an entry,
    yet with [include_hidden] false the hidden-directory rule prunes it, so
    it is not listed and its eligible file is not a candidate.  It also
    fails below a pruned directory. *)
Lemma differently_cased_hidden_counterexample :
  (".GIT" ∉ DEFAULT_EXCLUDED_DIRS) /\
  PyStr.lower ".GIT" ∈ DEFAULT_EXCLUDED_DIRS /\
  file_selected DEFAULT_ALLOWED_EXTENSIONS false "hook.py" = true /\
  walk_project (flat_project [Dir ".GIT" [File "hook.py"]])
    ["proj"] DEFAULT_EXCLUDED_DIRS DEFAULT_ALLOWED_EXTENSIONS false
  = ([], [OpScandir ["proj"]]) /\
  walk_project (flat_project [Dir "node_modules" [Dir "TARGET" [File "hook.py"]]])
    ["proj"] DEFAULT_EXCLUDED_DIRS DEFAULT_ALLOWED_EXTENSIONS false
  = ([], [OpScandir ["proj"]]).
Proof.
  split; [vm_compute; discriminate|].
  split; [vm_compute; reflexivity|].
  repeat split; vm_compute; reflexivity.
Qed.

(** C10, amended.  The name test is string equality on the name as it is:
    [TARGET] and [Node_Modules] are not in the default set although their
    lower-cased forms are, while the extension test lower-cases the suffix.
    A directory that the walk reaches, whose name is not itself in the
    excluded set and which the hidden-directory rule does not prune, is
    listed, and each of its selected files is a candidate. *)
Theorem exclusion_is_case_sensitive
    (fs : filesystem) (root_dir : Path) (excl allowed : gset string) (hid : bool)
    (tree : node) (ds : list string) (cs sub : list node) (d f : string)
    (Htree : fs_tree fs root_dir = Some tree)
    (Hparent : dir_at tree ds cs)
    (Hreached : Forall (fun d' => dir_kept excl hid d' = true) ds)
    (Hdir : In (Dir d sub) cs)
    (Hname : d ∉ excl)
    (Hhidden : hid = true \/ PyStr.startswith_dot d = false)
    (Hfile : In (File f) sub)
    (Hsel : file_selected allowed hid f = true) :
  In (OpScandir (root_dir ++ ds ++ [d])) (log (walk_project fs root_dir excl allowed hid)) /\
  In (root_dir ++ ds ++ [d; f]) (value (walk_project fs root_dir excl allowed hid)) /\
  (("TARGET" ∉ DEFAULT_EXCLUDED_DIRS) /\
   PyStr.lower "TARGET" ∈ DEFAULT_EXCLUDED_DIRS) /\
  (("Node_Modules" ∉ DEFAULT_EXCLUDED_DIRS) /\
   PyStr.lower "Node_Modules" ∈ DEFAULT_EXCLUDED_DIRS) /\
  file_selected DEFAULT_ALLOWED_EXTENSIONS hid "M.RS" = true.
Proof.
  assert (Hk : Forall (fun d' => dir_kept excl hid d' = true) (ds ++ [d])).
  { apply List.Forall_app. split; [exact Hreached|].
    constructor; [|constructor]. now apply dir_kept_true. }
  assert (Hat : dir_at tree (ds ++ [d]) sub) by (eapply dir_at_snoc; eassumption).
  split; [|split; [|split; [|split]]].
  - rewrite (walk_project_log _ _ _ _ _ _ Htree), List.in_map_iff.
    eexists. split; [|apply in_os_walk; exists (ds ++ [d]), sub; eauto].
    reflexivity.
  - apply (in_walk_project _ _ _ _ _ _ _ Htree), in_collect_paths.
    exists (ds ++ [d]), sub, f. repeat split; try assumption.
    now rewrite <- !List.app_assoc.
  - split; [vm_compute; discriminate|vm_compute; reflexivity].
  - split; [vm_compute; discriminate|vm_compute; reflexivity].
  - destruct hid; vm_compute; reflexivity.
Qed.

Lemma exclusion_is_case_sensitive_witness :
  In (OpScandir ["home"; "proj"; "TARGET"])
     (log (walk_project demo_fs demo_root DEFAULT_EXCLUDED_DIRS
             DEFAULT_ALLOWED_EXTENSIONS false)) /\
  In ["home"; "proj"; "TARGET"; "m.RS"]
     (value (walk_project demo_fs demo_root DEFAULT_EXCLUDED_DIRS
               DEFAULT_ALLOWED_EXTENSIONS false)).
Proof.
  pose proof (exclusion_is_case_sensitive demo_fs demo_root DEFAULT_EXCLUDED_DIRS
                DEFAULT_ALLOWED_EXTENSIONS false demo_tree []
                _ [File "m.RS"] "TARGET" "m.RS"
                eq_refl (dir_here _ _) (List.Forall_nil _)) as H.
  destruct H as (H1 & H2 & _).
  - simpl. tauto.
  - vm_compute. discriminate.
  - now right.
  - now left.
  - vm_compute. reflexivity.
  - split; [exact H1|exact H2].
Defined.

(** ** Two runs on an unchanged tree *)






(** * Further properties of the code *)

(** ** Which paths are candidates *)

Lemma file_selected_true allowed hid f :
  file_selected allowed hid f = true <->
  (hid = true \/ PyStr.startswith_dot f = false
   \/ suffix_of_name f ∈ HIDDEN_EXEMPT_SUFFIXES) /\
  PyStr.lower (suffix_of_name f) ∈ allowed.
Proof.
  unfold file_selected.
  rewrite andb_true_iff, negb_true_iff, bool_decide_eq_true.
  rewrite !andb_false_iff, !negb_false_iff, bool_decide_eq_true.
  intuition.
Qed.



(** X2.  Options only ever act in one direction: with fewer excluded
    directory names, more allowed extensions, or hidden entries switched
    on, every former candidate is still a candidate. *)
Theorem candidates_monotone
    (fs : filesystem) (root_dir : Path) (excl excl' allowed allowed' : gset string)
    (hid hid' : bool) (p : Path)
    (Hexcl : excl' ⊆ excl) (Hallowed : allowed ⊆ allowed')
    (Hhid : hid = true -> hid' = true)
    (Hp : In p (value (walk_project fs root_dir excl allowed hid))) :
  In p (value (walk_project fs root_dir excl' allowed' hid')).
Proof.
  destruct (fs_tree fs root_dir) as [tree|] eqn:Htree.
  - apply (in_walk_project _ _ _ _ _ _ _ Htree), in_collect_paths.
    apply (in_walk_project _ _ _ _ _ _ _ Htree), in_collect_paths in Hp.
    destruct Hp as (ds & cs & f & Hat & Hk & Hf & Hsel & ->).
    exists ds, cs, f. repeat split; try assumption.
    + eapply List.Forall_impl; [|exact Hk]. intros d Hd.
      apply dir_kept_true in Hd as [Hd Hh]. apply dir_kept_true.
      split; [intros Hin; exact (Hd (Hexcl _ Hin))|].
      destruct Hh as [Hh|Hh]; [left; exact (Hhid Hh)|right; exact Hh].
    + apply file_selected_true in Hsel as [Hh Ha]. apply file_selected_true.
      split; [|exact (Hallowed _ Ha)].
      destruct Hh as [Hh|Hh]; [left; exact (Hhid Hh)|right; exact Hh].
  - unfold walk_project in Hp. rewrite Htree in Hp. destruct Hp.
Qed.

Lemma candidates_monotone_witness :
  In ["home"; "proj"; "src"; "a.py"]
     (value (walk_project demo_fs demo_root ∅ DEFAULT_ALLOWED_EXTENSIONS true)).
Proof.
  apply (candidates_monotone demo_fs demo_root DEFAULT_EXCLUDED_DIRS ∅
           {[ ".py" ]} DEFAULT_ALLOWED_EXTENSIONS false true).
  - set_solver.
  - intros e He. apply elem_of_singleton in He. subst e. vm_compute. reflexivity.
  - discriminate.
  - vm_compute. tauto.
Defined.

(** ** Every directory once, every file once *)

Lemma NoDup_flat_map_tagged {A B K : Type}
    (key : A -> K) (tag : B -> K) (g : A -> list B) (ys : list A) :
  NoDup (List.map key ys) ->
  (forall y, In y ys -> NoDup (g y)) ->
  (forall y x, In y ys -> In x (g y) -> tag x = key y) ->
  NoDup (List.flat_map g ys).
Proof.
  induction ys as [|y ys IH]; intros Hk Hg Ht; simpl; [constructor|].
  inversion Hk as [|? ? Hnotin Hk']; subst.
  apply NoDup_app. split; [apply Hg; now left|]. split.
  - intros x Hx Hx'. rewrite list_elem_of_In in Hx, Hx'.
    apply List.in_flat_map in Hx' as (y' & Hy' & Hx').
    apply Hnotin. apply list_elem_of_In, List.in_map_iff. exists y'. split; [|exact Hy'].
    rewrite <- (Ht y' x (or_intror Hy') Hx'). apply Ht; [now left|exact Hx].
  - apply IH; [exact Hk'| |].
    + intros y' Hy'. apply Hg. now right.
    + intros y' x Hy' Hx. apply Ht; [now right|exact Hx].
Qed.

Lemma map_flat_map {A B C : Type} (f : B -> C) (g : A -> list B) (l : list A) :
  List.map f (List.flat_map g l) = List.flat_map (fun a => List.map f (g a)) l.
Proof.
  induction l as [|a l IH]; simpl; [reflexivity|].
  now rewrite List.map_app, IH.
Qed.

Lemma NoDup_filenames_of (cs : list node) :
  NoDup (List.map node_name cs) -> NoDup (filenames_of cs).
Proof.
  induction cs as [|[f|d sub] cs IH]; intros H; [constructor| |].
  - inversion H as [|? ? Hnotin H']; subst.
    change (filenames_of (File f :: cs)) with (f :: filenames_of cs).
    constructor; [|now apply IH].
    rewrite list_elem_of_In, in_filenames_of. intros Hin. apply Hnotin.
    rewrite list_elem_of_In. apply List.in_map_iff. now exists (File f).
  - inversion H; subst. change (filenames_of (Dir d sub :: cs)) with (filenames_of cs).
    now apply IH.
Qed.

Lemma dir_at_well_formed tree ds cs :
  dir_at tree ds cs -> well_formed tree -> NoDup (List.map node_name cs).
Proof.
  induction 1 as [name cs|name cs d sub ds cs' Hin Hat IH]; intros Hwf;
    inversion Hwf as [|? ? Hnames Hall]; subst; [exact Hnames|].
  apply IH. rewrite List.Forall_forall in Hall. now apply Hall.
Qed.

Lemma os_walk_dirs_NoDup (keep : string -> bool) (tree : node) :
  well_formed tree ->
  forall top, NoDup (List.map current_dir (os_walk keep top tree)).
Proof.
  induction tree as [f|name cs IH] using node_ind; intros Hwf top; [constructor|].
  inversion Hwf as [|? ? Hnames Hall]; subst. simpl. constructor.
  - rewrite list_elem_of_In, List.in_map_iff. intros (y & Hy & Hin).
    apply List.in_flat_map in Hin as (c & Hc & Hin).
    destruct c as [f|d sub]; [destruct Hin|].
    destruct (keep d); [|destruct Hin].
    apply in_os_walk in Hin as (ds & cs' & _ & _ & ->). simpl in Hy.
    apply (f_equal (@List.length string)) in Hy. unfold child in Hy.
    rewrite !List.length_app in Hy. simpl in Hy. lia.
  - rewrite map_flat_map.
    apply (NoDup_flat_map_tagged node_name (fun q => List.nth (List.length top) q "")).
    + exact Hnames.
    + intros c Hc. destruct c as [f|d sub]; [constructor|].
      destruct (keep d); [|constructor].
      rewrite List.Forall_forall in IH, Hall. apply IH; [exact Hc|now apply Hall].
    + intros c q Hc Hq. destruct c as [f|d sub]; [destruct Hq|].
      destruct (keep d); [|destruct Hq].
      apply List.in_map_iff in Hq as (y & <- & Hy).
      apply in_os_walk in Hy as (ds & cs' & _ & _ & ->). simpl. unfold child.
      rewrite <- List.app_assoc, List.app_nth2, Nat.sub_diag by lia. reflexivity.
Qed.

Lemma NoDup_map_child (current_path : Path) (names : list string) :
  NoDup names -> NoDup (List.map (child current_path) names).
Proof.
  induction 1 as [|f names Hnotin Hnd IH]; simpl; constructor; [|exact IH].
  rewrite list_elem_of_In, List.in_map_iff. intros (g & Hg & Hin).
  apply Hnotin. unfold child in Hg. apply List.app_inv_head in Hg.
  injection Hg as ->. now apply list_elem_of_In.
Qed.

(** X3.  On a tree whose directories hold distinct names, the walker
    lists every directory at most once and returns every file at most
    once. *)
Theorem walk_visits_once
    (fs : filesystem) (root_dir : Path) (excl allowed : gset string) (hid : bool)
    (tree : node)
    (Htree : fs_tree fs root_dir = Some tree)
    (Hwf : well_formed tree) :
  NoDup (log (walk_project fs root_dir excl allowed hid)) /\
  NoDup (value (walk_project fs root_dir excl allowed hid)).
Proof.
  split.
  - rewrite (walk_project_log _ _ _ _ _ _ Htree).
    rewrite <- (List.map_map current_dir OpScandir).
    assert (Hd := os_walk_dirs_NoDup (dir_kept excl hid) tree Hwf root_dir).
    induction Hd as [|q qs Hnotin Hd IH]; simpl; constructor; [|exact IH].
    rewrite list_elem_of_In, List.in_map_iff. intros (q' & Hq' & Hin).
    injection Hq' as ->. apply Hnotin. now apply list_elem_of_In.
  - rewrite (walk_project_value _ _ _ _ _ _ Htree).
    rewrite sort_by_key_perm. unfold collect_paths.
    apply (NoDup_flat_map_tagged current_dir (@List.removelast string)).
    + now apply os_walk_dirs_NoDup.
    + intros y Hy. apply in_os_walk in Hy as (ds & cs & Hat & _ & ->). simpl.
      rewrite collect_files_filter. apply NoDup_map_child.
      apply NoDup_ListNoDup, List.NoDup_filter, NoDup_ListNoDup, NoDup_filenames_of.
      eapply dir_at_well_formed; eassumption.
    + intros y p Hy Hp. rewrite collect_files_filter in Hp.
      apply List.in_map_iff in Hp as (f & <- & _).
      apply List.removelast_last.
Qed.

Lemma demo_tree_well_formed : well_formed demo_tree.
Proof.
  repeat first
    [ apply wf_file
    | apply wf_dir
    | apply List.Forall_cons
    | apply List.Forall_nil
    | (apply (bool_decide_unpack _); vm_compute; exact I) ].
Qed.

Lemma walk_visits_once_witness :
  NoDup (log (walk_project demo_fs demo_root DEFAULT_EXCLUDED_DIRS
                DEFAULT_ALLOWED_EXTENSIONS false)) /\
  NoDup (value (walk_project demo_fs demo_root DEFAULT_EXCLUDED_DIRS
                  DEFAULT_ALLOWED_EXTENSIONS false)).
Proof.
  exact (walk_visits_once demo_fs demo_root DEFAULT_EXCLUDED_DIRS
           DEFAULT_ALLOWED_EXTENSIONS false demo_tree eq_refl demo_tree_well_formed).
Defined.

(** ** The extension tests and the case of the file name *)





Lemma lower_ascii_idem (c : ascii) :
  PyStr.lower_ascii (PyStr.lower_ascii c) = PyStr.lower_ascii c.
Proof. destruct c as [[] [] [] [] [] [] [] []]; reflexivity. Qed.

Lemma lower_idem (s : string) : PyStr.lower (PyStr.lower s) = PyStr.lower s.
Proof.
  induction s as [|a s IH]; simpl; [reflexivity|].
  now rewrite lower_ascii_idem, IH.
Qed.



(** ** The language table *)

(** X5.  The language table has an entry for every default extension, so
    in a run with the default allow-list the fence tag of every candidate
    is the table's entry for its lower-cased suffix, never the fallback
    for a missing key; a suffix without an entry gets the empty tag. *)
Theorem default_candidates_have_table_entry
    (decode : list byte -> string) (args : Args) (fs : filesystem) (s : RunSummary)
    (Hdefault : only_exts args = [])
    (Hrun : value (main decode args fs) = Completed s) :
  (forall p, In p (collected_paths s) ->
     exists tag, LANG_FROM_EXTENSION !! PyStr.lower (suffix p) = Some tag /\
                 infer_lang_from_extension p = tag) /\
  (forall p, LANG_FROM_EXTENSION !! PyStr.lower (suffix p) = None ->
             infer_lang_from_extension p = "").
Proof.
  split.
  - intros p Hp.
    destruct (main_completed _ _ _ _ Hrun) as (_ & _ & _ & Hc & _).
    rewrite Hc in Hp. apply candidate_extension_allowed in Hp.
    unfold allowed_extensions_of in Hp. rewrite Hdefault in Hp.
    unfold infer_lang_from_extension.
    assert (Hall : forall e, e ∈ DEFAULT_ALLOWED_EXTENSIONS ->
                             is_Some (LANG_FROM_EXTENSION !! e)).
    { intros e He. unfold DEFAULT_ALLOWED_EXTENSIONS in He.
      rewrite elem_of_list_to_set in He.
      repeat (apply elem_of_cons in He as [->|He];
              [vm_compute; eexists; reflexivity|]).
      now apply elem_of_nil in He. }
    destruct (Hall _ Hp) as [tag Htag]. exists tag. now rewrite Htag.
  - intros p Hp. unfold infer_lang_from_extension. now rewrite Hp.
Qed.

Lemma default_candidates_have_table_entry_witness :
  exists tag, LANG_FROM_EXTENSION !! PyStr.lower (suffix ["home"; "proj"; "TARGET"; "m.RS"])
              = Some tag /\
              infer_lang_from_extension ["home"; "proj"; "TARGET"; "m.RS"] = tag.
Proof.
  assert (Hrun : value (main ascii_decode demo_args demo_fs) = Completed demo_summary)
    by (vm_compute; reflexivity).
  apply (proj1 (default_candidates_have_table_entry ascii_decode demo_args demo_fs
                  demo_summary eq_refl Hrun)).
  vm_compute. tauto.
Defined.

(** ** What the detector and the loader accept *)

Lemma binary_verdict_false (chunk : list byte) :
  binary_verdict chunk = false <->
  ~ In x00 chunk /\ 10 * control_bytes chunk <= 3 * Z.of_nat (List.length chunk).
Proof.
  unfold binary_verdict. destruct (has_nul chunk) eqn:Hnul.
  - apply has_nul_In in Hnul. split; [discriminate|tauto].
  - assert (Hn : ~ In x00 chunk).
    { intros Hin. apply has_nul_In in Hin. congruence. }
    destruct chunk as [|b chunk].
    + unfold control_bytes. simpl. split; [intros _; split; [exact Hn|lia]|reflexivity].
    + rewrite Z.ltb_ge. tauto.
Qed.

Lemma text_bytes_not_control (chunk : list byte) :
  (forall b, In b chunk -> text_byte b) -> control_bytes chunk = 0.
Proof.
  intros H. unfold control_bytes.
  replace (List.filter is_control_byte chunk) with (@nil byte); [reflexivity|].
  symmetry. induction chunk as [|b chunk IH]; [reflexivity|]. simpl.
  destruct (is_control_byte b) eqn:Hb.
  - apply is_control_byte_spec in Hb. specialize (H b (or_introl eq_refl)).
    unfold text_byte in H. cbv zeta in H. lia.
  - apply IH. intros b' Hb'. apply H. now right.
Qed.

(** X6.  A file within the size limit whose sample (its first 8192 bytes)
    holds only tab, line feed, vertical tab, form feed, carriage return
    and bytes from 32 up is never taken for binary: the loader returns
    the decoding of the whole file, whatever follows the sample. *)
Theorem clean_text_is_loaded
    (fs : filesystem) (decode : list byte -> string) (p : Path) (max_bytes size : Z)
    (data : list byte)
    (Hstat : fs_stat fs p = Some size)
    (Hsize : size <= max_bytes)
    (Hread : fs_read fs p = Some data)
    (Hclean : forall b, In b (List.firstn SAMPLE_BYTES data) -> text_byte b) :
  value (is_probably_binary fs p) = false /\
  read_text_safely fs decode p max_bytes
  = (Some (decode data), [OpStat p; OpOpenSample p; OpReadText p]).
Proof.
  assert (Hv : binary_verdict (List.firstn SAMPLE_BYTES data) = false).
  { apply binary_verdict_false. split.
    - intros Hin. specialize (Hclean _ Hin). unfold text_byte in Hclean.
      simpl in Hclean. lia.
    - rewrite (text_bytes_not_control _ Hclean). lia. }
  split.
  - now rewrite is_probably_binary_value, Hread.
  - rewrite read_text_safely_cases, Hstat, Hread, Hv.
    now rewrite (proj2 (Z.ltb_ge max_bytes size) Hsize).
Qed.

Lemma clean_text_is_loaded_witness :
  read_text_safely demo_fs ascii_decode ["home"; "proj"; "src"; "a.py"] (512 * 1024)
  = (Some ("print(1)" +:+ nl),
     [OpStat ["home"; "proj"; "src"; "a.py"];
      OpOpenSample ["home"; "proj"; "src"; "a.py"];
      OpReadText ["home"; "proj"; "src"; "a.py"]]).
Proof.
  refine (proj2 (clean_text_is_loaded demo_fs ascii_decode
                   ["home"; "proj"; "src"; "a.py"] (512 * 1024) 10
                   (list_byte_of_string ("print(1)" +:+ nl)) eq_refl _ eq_refl _)).
  - lia.
  - intros b Hb. vm_compute in Hb.
    repeat (destruct Hb as [<-|Hb]; [vm_compute; intuition congruence|]). destruct Hb.
Defined.

(** X7.  The loader hands back a text in exactly one situation: [stat]
    answers with a size within the limit, the file can be read, its sample
    has no NUL byte and at most three control bytes in ten; the text is
    then the decoding of the whole content.  In every other situation it
    returns [None]. *)
Theorem loader_accepts_iff
    (fs : filesystem) (decode : list byte -> string) (p : Path) (max_bytes : Z)
    (text : string) :
  value (read_text_safely fs decode p max_bytes) = Some text <->
  exists size data,
    fs_stat fs p = Some size /\ size <= max_bytes /\
    fs_read fs p = Some data /\
    ~ In x00 (List.firstn SAMPLE_BYTES data) /\
    10 * control_bytes (List.firstn SAMPLE_BYTES data)
      <= 3 * Z.of_nat (List.length (List.firstn SAMPLE_BYTES data)) /\
    text = decode data.
Proof.
  rewrite read_text_safely_cases. unfold value. split.
  - destruct (fs_stat fs p) as [size|]; [|discriminate].
    destruct (max_bytes <? size) eqn:Hsz; [discriminate|].
    destruct (fs_read fs p) as [data|]; [|discriminate].
    destruct (binary_verdict _) eqn:Hv; [discriminate|].
    simpl. intros H. injection H as <-. apply Z.ltb_ge in Hsz.
    apply binary_verdict_false in Hv as [Hn Hc].
    exists size, data. repeat split; assumption.
  - intros (size & data & -> & Hsz & -> & Hn & Hc & ->).
    rewrite (proj2 (Z.ltb_ge max_bytes size) Hsz).
    now rewrite (proj2 (binary_verdict_false _) (conj Hn Hc)).
Qed.

(** X8.  A candidate within the size limit whose sample holds a NUL byte
    is counted under [skipped_as_binary] whatever its extension: nothing
    is appended to the document, the other counters stay, and the file is
    sampled but never read as text. *)
Theorem nul_file_counted_binary
    (fs : filesystem) (decode : list byte -> string) (project_root : Path)
    (maximum_bytes : Z) (st : LoopState) (p : Path) (size : Z) (data : list byte)
    (Hstat : fs_stat fs p = Some size)
    (Hsize : size <= maximum_bytes)
    (Hread : fs_read fs p = Some data)
    (Hnul : In x00 (List.firstn SAMPLE_BYTES data)) :
  let st' := value (process_file fs decode project_root maximum_bytes st p) in
  lines st' = lines st /\
  counters st' = (included_count st, skipped_for_size st, S (skipped_as_binary st)) /\
  log (process_file fs decode project_root maximum_bytes st p)
  = [OpStat p; OpOpenSample p; OpStat p].
Proof.
  cbv zeta. rewrite process_file_cases, Hstat, Hread.
  rewrite (proj2 (Z.ltb_ge maximum_bytes size) Hsize).
  assert (Hv : binary_verdict (List.firstn SAMPLE_BYTES data) = true).
  { unfold binary_verdict. now rewrite (proj2 (has_nul_In _) Hnul). }
  rewrite Hv. repeat split.
Qed.

Lemma nul_file_counted_binary_witness :
  log (process_file demo_fs ascii_decode demo_root (512 * 1024) (final demo_summary)
         ["home"; "proj"; "src"; "bin.c"])
  = [OpStat ["home"; "proj"; "src"; "bin.c"];
     OpOpenSample ["home"; "proj"; "src"; "bin.c"];
     OpStat ["home"; "proj"; "src"; "bin.c"]].
Proof.
  refine (proj2 (proj2 (nul_file_counted_binary demo_fs ascii_decode demo_root
                          (512 * 1024) (final demo_summary)
                          ["home"; "proj"; "src"; "bin.c"] 10
                          [x00; x41; x42] eq_refl _ eq_refl _))).
  - lia.
  - vm_compute. tauto.
Defined.

(** ** The layout of the document *)

Lemma for_each_toc fs project_root xs acc :
  for_each (toc_entry fs project_root) xs acc
  = (acc ++ toc_of fs project_root xs, List.map OpStat xs).
Proof.
  revert acc. induction xs as [|x xs IH]; intros acc.
  - unfold toc_of. simpl. now rewrite List.app_nil_r.
  - rewrite for_each_cons. unfold toc_entry at 1, stat_size, bind, ret, toc_of.
    cbn [List.flat_map List.map].
    destruct (fs_stat fs x) as [size|]; rewrite IH; unfold toc_of.
    + now rewrite <- List.app_assoc.
    + reflexivity.
Qed.

Section BodyLayout.

Variable fs : filesystem.
Variable decode : list byte -> string.
Variable project_root : Path.
Variable maximum_bytes : Z.

(** How the loop body treats one candidate, told by the loader's answer
    and the size test. *)
Lemma process_file_by_outcome st p :
  value (process_file fs decode project_root maximum_bytes st p)
  = match loaded fs decode maximum_bytes p with
    | Some content =>
        append (count_included st) (section_lines project_root p content)
    | None =>
        if is_too_large fs maximum_bytes p then count_too_large st else count_binary st
    end.
Proof.
  unfold loaded. rewrite process_file_cases, read_text_safely_cases.
  unfold is_too_large, value.
  destruct (fs_stat fs p) as [size|]; [|reflexivity].
  destruct (maximum_bytes <? size); [reflexivity|].
  destruct (fs_read fs p) as [data|]; [|reflexivity].
  destruct (binary_verdict _); reflexivity.
Qed.

Lemma for_each_body_lines xs st :
  lines (value (for_each (process_file fs decode project_root maximum_bytes) xs st))
  = lines st ++ sections_of fs decode project_root maximum_bytes xs.
Proof.
  revert st. induction xs as [|x xs IH]; intros st.
  - simpl. now rewrite List.app_nil_r.
  - rewrite for_each_cons, value_bind, IH, process_file_by_outcome.
    unfold sections_of. cbn [List.flat_map].
    destruct (loaded fs decode maximum_bytes x) as [content|].
    + cbn [lines append]. now rewrite <- List.app_assoc.
    + now destruct (is_too_large fs maximum_bytes x).
Qed.

Lemma for_each_body_counters xs st :
  let is_loaded p := bool_decide (is_Some (loaded fs decode maximum_bytes p)) in
  let is_large p := is_too_large fs maximum_bytes p in
  counters (value (for_each (process_file fs decode project_root maximum_bytes) xs st))
  = ((included_count st + List.length (List.filter is_loaded xs))%nat,
     (skipped_for_size st + List.length (List.filter is_large xs))%nat,
     (skipped_as_binary st
      + List.length (List.filter (fun p => negb (is_loaded p) && negb (is_large p)) xs))%nat).
Proof.
  cbv zeta. revert st. induction xs as [|x xs IH]; intros st.
  - unfold counters. simpl. rewrite !pair_equal_spec. lia.
  - rewrite for_each_cons, value_bind, IH, process_file_by_outcome.
    cbn [List.filter].
    assert (Hexcl : forall c, loaded fs decode maximum_bytes x = Some c ->
                              is_too_large fs maximum_bytes x = false).
    { unfold loaded. rewrite read_text_safely_cases. unfold is_too_large, value.
      destruct (fs_stat fs x) as [size|]; [|reflexivity].
      now destruct (maximum_bytes <? size). }
    destruct (loaded fs decode maximum_bytes x) as [content|] eqn:Hl.
    + rewrite (Hexcl _ eq_refl). simpl. rewrite !pair_equal_spec. lia.
    + destruct (is_too_large fs maximum_bytes x); simpl; rewrite !pair_equal_spec; lia.
Qed.

End BodyLayout.

(** X9.  The document of a completed run is, line by line: the seven
    header lines; one bullet for every candidate whose [stat] answers, in
    the order of the candidates and whatever the loader later decides; the
    separator; the four-line section of every candidate that the loader
    accepts, in the same order; and the five footer lines that print the
    counters.  It is written to the [--output] path. *)
Theorem document_layout
    (decode : list byte -> string) (args : Args) (fs : filesystem) (s : RunSummary)
    (Hrun : value (main decode args fs) = Completed s) :
  let collected := collected_paths s in
  lines (final s)
  = header_of args collected
    ++ toc_of fs (root args) collected
    ++ [nl +:+ "---" +:+ nl]
    ++ sections_of fs decode (root args) (max_kb args * 1024) collected /\
  document s = PyStr.join nl (lines (final s) ++ footer_of (final s)) /\
  output_file s = output args.
Proof.
  revert Hrun. unfold main. cbv zeta.
  destruct (fs_tree fs (root args)) as [tree|]; [|discriminate].
  rewrite !value_bind. unfold ret at 1. unfold value at 1.
  cbn [fst]. intros H. injection H as <-.
  cbn [collected_paths final document output_file].
  split; [|split; reflexivity].
  rewrite for_each_body_lines. cbn [lines].
  rewrite for_each_toc. unfold value at 1. cbn [fst].
  unfold header_of. now rewrite <- !List.app_assoc.
Qed.

Lemma document_layout_witness :
  List.length (lines (final demo_summary)) = (7 + 9 + 1 + 4 * 7)%nat /\
  document demo_summary
  = PyStr.join nl (lines (final demo_summary) ++ footer_of (final demo_summary)).
Proof.
  assert (Hrun : value (main ascii_decode demo_args demo_fs) = Completed demo_summary)
    by (vm_compute; reflexivity).
  split; [vm_compute; reflexivity|].
  exact (proj1 (proj2 (document_layout _ _ _ _ Hrun))).
Defined.

(** X10.  At the end of a run each counter is the number of candidates of
    its kind: [included_count] counts those the loader accepts,
    [skipped_for_size] those whose size is over the limit, and
    [skipped_as_binary] all the others; the body has four lines per
    included candidate. *)
Theorem counters_by_outcome
    (decode : list byte -> string) (args : Args) (fs : filesystem) (s : RunSummary)
    (Hrun : value (main decode args fs) = Completed s) :
  let maximum_bytes := max_kb args * 1024 in
  let is_loaded p := bool_decide (is_Some (loaded fs decode maximum_bytes p)) in
  let is_large p := is_too_large fs maximum_bytes p in
  included_count (final s) = List.length (List.filter is_loaded (collected_paths s)) /\
  skipped_for_size (final s) = List.length (List.filter is_large (collected_paths s)) /\
  skipped_as_binary (final s)
  = List.length (List.filter (fun p => negb (is_loaded p) && negb (is_large p))
                   (collected_paths s)) /\
  List.length (sections_of fs decode (root args) maximum_bytes (collected_paths s))
  = (4 * included_count (final s))%nat.
Proof.
  cbv zeta.
  destruct (main_completed _ _ _ _ Hrun) as (start & toc_log & H0 & Hc & Hf & _ & _).
  pose proof (for_each_body_counters fs decode (root args) (max_kb args * 1024)
                (collected_paths s) start) as Hcount.
  cbv zeta in Hcount. rewrite Hc in *. rewrite <- Hf in Hcount.
  unfold counters in H0, Hcount. injection H0 as Hi Hz Hb.
  injection Hcount as Hi' Hz' Hb'. rewrite Hi in Hi'. rewrite Hz in Hz'. rewrite Hb in Hb'.
  split; [exact Hi'|]. split; [exact Hz'|]. split; [exact Hb'|].
  rewrite Hi'. clear. simpl Nat.add.
  induction (value (walk_project fs (root args) (excluded_directories_of args)
                      (allowed_extensions_of args) (include_hidden args)))
    as [|x xs IH]; [reflexivity|].
  unfold sections_of in *. cbn [List.flat_map List.filter].
  destruct (loaded fs decode (max_kb args * 1024) x) as [content|].
  - rewrite List.length_app, IH. simpl. lia.
  - simpl. exact IH.
Qed.

Lemma counters_by_outcome_witness :
  included_count (final demo_summary)
  = List.length
      (List.filter
         (fun p => bool_decide (is_Some (loaded demo_fs ascii_decode (512 * 1024) p)))
         (collected_paths demo_summary)).
Proof.
  assert (Hrun : value (main ascii_decode demo_args demo_fs) = Completed demo_summary)
    by (vm_compute; reflexivity).
  exact (proj1 (counters_by_outcome _ _ _ _ Hrun)).
Defined.

(** ** The root that is missing, or is not a directory *)


(** ** What a run touches *)




(** ** Sizes in the table of contents *)

Lemma round_half_even_div_1024 (a : Z) :
  let t := round_half_even_div a 1024 in
  Z.abs (1024 * t - a) <= 512 /\
  (Z.abs (1024 * t - a) = 512 -> Z.even t = true).
Proof.
  unfold round_half_even_div. cbv zeta.
  pose proof (Z.div_mod a 1024 ltac:(lia)) as Hdm.
  pose proof (Z.mod_pos_bound a 1024 ltac:(lia)) as Hr.
  destruct (1024 <? 2 * (a mod 1024)) eqn:H1.
  - apply Z.ltb_lt in H1. split; lia.
  - apply Z.ltb_ge in H1. destruct (2 * (a mod 1024) =? 1024) eqn:H2.
    + apply Z.eqb_eq in H2. destruct (Z.even (a / 1024)) eqn:He.
      * split; [lia|intros _; exact He].
      * split; [lia|]. intros _.
        replace (a / 1024 + 1) with (Z.succ (a / 1024)) by lia.
        rewrite Z.even_succ, <- Z.negb_even, He. reflexivity.
    + apply Z.eqb_neq in H2. split; lia.
Qed.

Lemma digit_string_length (d : Z) :
  0 <= d < 10 -> String.length (PyStr.str_of_int d) = 1%nat.
Proof.
  intros H.
  assert (Hd : d = 0 \/ d = 1 \/ d = 2 \/ d = 3 \/ d = 4 \/ d = 5 \/ d = 6
               \/ d = 7 \/ d = 8 \/ d = 9) by lia.
  repeat (destruct Hd as [->|Hd]; [reflexivity|]). now subst.
Qed.

(** X13.  For sizes [0 <= n <= m < 2^53] (where [n / 1024] is an exact
    double) the figure printed in the table of contents is the number of
    tenths of a kilobyte nearest to [n / 1024], the even one when two are
    equally near; it is printed with exactly one digit after the point,
    and the larger file never gets the smaller figure. *)
Theorem human_kilobytes_rounds
    (n m : Z) (Hn : 0 <= n) (Hm : n <= m) (Hdouble : m < 2 ^ 53) :
  let tenths := round_half_even_div (n * 10) 1024 in
  Z.abs (1024 * tenths - 10 * n) <= 512 /\
  (Z.abs (1024 * tenths - 10 * n) = 512 -> Z.even tenths = true) /\
  0 <= tenths <= round_half_even_div (m * 10) 1024 /\
  String.length (PyStr.str_of_int (tenths mod 10)) = 1%nat /\
  human_kilobytes n
  = PyStr.str_of_int (tenths / 10) +:+ "." +:+ PyStr.str_of_int (tenths mod 10) +:+ " KB".
Proof.
  cbv zeta.
  pose proof (round_half_even_div_1024 (n * 10)) as [Hb He].
  pose proof (round_half_even_div_1024 (m * 10)) as [Hb' _].
  split; [lia|]. split; [intros H; apply He; lia|].
  split; [destruct (Z.eq_dec n m) as [<-|Hne]; lia|].
  split; [|reflexivity].
  apply digit_string_length. apply Z.mod_pos_bound. lia.
Qed.

Lemma human_kilobytes_rounds_witness :
  human_kilobytes 256 = "0.2 KB" /\ human_kilobytes 768 = "0.8 KB" /\
  Z.abs (1024 * round_half_even_div (256 * 10) 1024 - 10 * 256) <= 512.
Proof.
  split; [reflexivity|]. split; [reflexivity|].
  refine (proj1 (human_kilobytes_rounds 256 768 _ _ _)); lia.
Defined.

(** ** The text of a section *)

(** X14.  The text placed in a section is the file's text without its
    trailing line feeds: the two differ by a run of line feeds only, the
    section text does not end with a line feed, and stripping it again
    changes nothing. *)
Theorem section_text_stripped (project_root file_path : Path) (content : string) :
  let text := PyStr.rstrip_nl content in
  List.nth 2 (section_lines project_root file_path content) "" = text /\
  (exists k, content = text +:+ newlines k) /\
  (forall t, text <> t +:+ nl) /\
  PyStr.rstrip_nl text = text.
Proof.
  cbv zeta. split; [reflexivity|].
  induction content as [|c s IH].
  - split; [now exists 0%nat|]. split; [|reflexivity].
    intros [|a t]; discriminate.
  - destruct IH as ((k & Hk) & Hno & Hidem). simpl.
    destruct (PyStr.rstrip_nl s) as [|a r] eqn:Hr.
    + simpl in Hk. destruct (Ascii.eqb c "010") eqn:Hc.
      * apply Ascii.eqb_eq in Hc. subst c.
        split; [exists (S k); now rewrite Hk|]. split; [|reflexivity].
        intros [|a t]; discriminate.
      * split; [exists k; now rewrite Hk|]. split.
        -- intros [|a t]; simpl; intros H.
           ++ injection H as ->. now rewrite Ascii.eqb_refl in Hc.
           ++ injection H as _ H. destruct t; discriminate.
        -- simpl. now rewrite Hc.
    + split.
      { exists k. change (String c s = String c (String a r +:+ newlines k)).
        f_equal. exact Hk. }
      split.
      * intros [|b t]; simpl; intros H; [discriminate|].
        injection H as -> H. now apply (Hno t).
      * change (PyStr.rstrip_nl (String c (String a r)))
          with (match PyStr.rstrip_nl (String a r) with
                | EmptyString =>
                    if Ascii.eqb c "010" then EmptyString else String c EmptyString
                | String a' r' => String c (String a' r')
                end).
        now rewrite Hidem.
Qed.

(** ** The order of the candidates does not depend on where the root is *)









Section SortMap.

Context {A B : Type} (keyA : A -> string) (keyB : B -> string) (f : A -> B).



End SortMap.





